(** * Instruction model of cadwyn / universi

    A shallow embedding of [cadwyn/structure/data.py] (payload views,
    the internal-representation registry, the data-migration
    instructions and their registration decorators) and of
    [universi/structure/endpoints.py] (endpoint instructions), followed
    by the properties of the instruction model that hold of them.

    Python objects that are shared and mutated in place (dictionaries,
    header lists, the transport response) live in an explicit store and
    are passed around by reference; functions that raise return a
    [result]. *)

From Stdlib Require Import ZArith.
From stdpp Require Import gmap strings list fin_maps.

Local Open Scope string_scope.

(* ===================================================================== *)
(** * Python prelude                                                      *)
(* ===================================================================== *)

(** References into the object store. *)
Abbreviation loc := positive.

(** The exceptions the two modules raise, with their message. *)
Inductive PyExc : Type :=
| ValueError (msg : string)
| TypeError (msg : string)
| AttributeError (msg : string).

(** The outcome of a call: a value, or a raised exception. *)
Inductive result (A : Type) : Type :=
| Ok (a : A)
| Raise (e : PyExc).

Arguments Ok {A} a.
Arguments Raise {A} e.

Definition bind {A B : Type} (r : result A) (k : A -> result B) : result B :=
  match r with
  | Ok a => k a
  | Raise e => Raise e
  end.

Notation "x <- r ;; k" := (bind r (fun x => k))
  (at level 100, r at next level, right associativity).
Notation "r ;;; k" := (bind r (fun _ => k))
  (at level 100, right associativity).

Definition is_ok {A : Type} (r : result A) : bool :=
  match r with Ok _ => true | Raise _ => false end.

(** A class object.  Classes are compared and hashed by identity
    ([cls_id]); [cls_module] and [cls_name] are [__module__] and
    [__name__]. *)
Record PyClass : Type := {
  cls_id : positive;
  cls_module : string;
  cls_name : string;
}.

(** The kinds of parameter [inspect] distinguishes. *)
Inductive ParamKind : Type :=
| POSITIONAL_ONLY
| POSITIONAL_OR_KEYWORD
| VAR_POSITIONAL
| KEYWORD_ONLY
| VAR_KEYWORD.

Record SigParameter : Type := {
  param_name : string;
  param_kind : ParamKind;
}.

(** A plain function object as written with [def]: its identity, the
    attributes [functools.update_wrapper] reads, and its declared
    parameters in order ([inspect.signature(f).parameters]).  Function
    objects carry no further attributes of their own. *)
Record PyFunction : Type := {
  fn_id : positive;
  fn_module : string;
  fn_name : string;
  fn_qualname : string;
  fn_doc : option string;
  fn_parameters : list SigParameter;
}.

(** [list(inspect.signature(f).parameters)]: the parameter names. *)
Definition signature_parameters (f : PyFunction) : list string :=
  map param_name (fn_parameters f).

(** Values handed around as [Any].  [VRef] is a reference to an object
    of any other kind (a dictionary, a class, a callable, ...); [VUnset]
    is the marker behind [Sentinel] below. *)
#[warnings="-register-all"]
Inductive PyValue : Type :=
| VNone
| VBool (b : bool)
| VInt (z : Z)
| VStr (s : string)
| VList (l : list PyValue)
| VRef (l : loc)
| VUnset.

(** Positional and keyword arguments of a call, [*args, **kwargs]. *)
Record CallArgs : Type := {
  call_args : list PyValue;
  call_kwargs : list (string * PyValue);
}.

(** Raw header items are pairs of byte strings. *)
Abbreviation bytes := (list Byte.byte).

(** Objects of the store: string dictionaries (cookies, the [_dict] of
    the query parameters), header collections over their raw list, and
    the transport response with its [status_code] attribute and its
    headers object. *)
Inductive PyObj : Type :=
| ODict (d : gmap string string)
| OHeaders (raw : list (bytes * bytes))
| OResponse (status_code : Z) (headers : loc).

Abbreviation Heap := (gmap loc PyObj).

(** Allocation of a new object. *)
Definition alloc (o : PyObj) (h : Heap) : loc * Heap :=
  let l := fresh (dom h) in (l, <[l := o]> h).

(** [d[k] = v] on the dictionary at [l]. *)
Definition dict_setitem (l : loc) (k v : string) (h : Heap) : result Heap :=
  match h !! l with
  | Some (ODict d) => Ok (<[l := ODict (<[k := v]> d)]> h)
  | _ => Raise (TypeError "object does not support item assignment")
  end.

(** [dict(d)] read out of the store. *)
Definition dict_items (l : loc) (h : Heap) : option (gmap string string) :=
  match h !! l with
  | Some (ODict d) => Some d
  | _ => None
  end.

(** The raw list of the headers object at [l]. *)
Definition headers_raw (l : loc) (h : Heap) : option (list (bytes * bytes)) :=
  match h !! l with
  | Some (OHeaders raw) => Some raw
  | _ => None
  end.

(** [MutableHeaders.append(key, value)] on the headers object at [l]. *)
Definition headers_append (l : loc) (k v : bytes) (h : Heap) : result Heap :=
  match h !! l with
  | Some (OHeaders raw) => Ok (<[l := OHeaders (raw ++ [(k, v)])]> h)
  | _ => Raise (AttributeError "object has no attribute 'append'")
  end.

(** [Headers.mutablecopy()]: a new headers object over a copy of the raw
    list. *)
Definition mutablecopy (l : loc) (h : Heap) : result (loc * Heap) :=
  match h !! l with
  | Some (OHeaders raw) => Ok (alloc (OHeaders raw) h)
  | _ => Raise (AttributeError "object has no attribute 'mutablecopy'")
  end.

(* ===================================================================== *)
(** * cadwyn/structure/data.py                                            *)
(* ===================================================================== *)

(** ** The internal-representation registry *)

(** [_SCHEMA_TO_INTERNAL_REQUEST_BODY_REPRESENTATION_MAPPING]: a
    module-level dictionary from the public schema (a class, hence keyed
    by identity) to its internal representation. *)
Abbreviation Mapping := (gmap positive PyClass).

Definition already_has_message (represents preexisting_representation : PyClass) : string :=
  cls_name represents +:+ " already has an internal request body representation: "
  +:+ cls_module preexisting_representation +:+ "." +:+ cls_name preexisting_representation.

(** [internal_body_representation_of(represents)(cls)], threading the
    module-level mapping. *)
Definition internal_body_representation_of (represents : PyClass) (cls : PyClass)
    (mapping : gmap positive PyClass) : result PyClass * gmap positive PyClass :=
  match mapping !! cls_id represents with
  | Some preexisting_representation =>
      (Raise (TypeError (already_has_message represents preexisting_representation)), mapping)
  | None =>
      (Ok cls, <[cls_id represents := cls]> mapping)
  end.

(** A module's worth of registrations, applied one after the other to
    the mapping; the outcome of each is kept. *)
Fixpoint register_all (decls : list (PyClass * PyClass)) (mapping : gmap positive PyClass)
    : list (result PyClass) * gmap positive PyClass :=
  match decls with
  | [] => ([], mapping)
  | (represents, cls) :: rest =>
      let '(r, mapping') := internal_body_representation_of represents cls mapping in
      let '(rs, mapping'') := register_all rest mapping' in
      (r :: rs, mapping'')
  end.

(** The first class registered for the schema identified by [k]. *)
Fixpoint first_registered (k : positive) (decls : list (PyClass * PyClass)) : option PyClass :=
  match decls with
  | [] => None
  | (represents, cls) :: rest =>
      if decide (cls_id represents = k) then Some cls else first_registered k rest
  end.

(** ** Payload views *)

(** The transport request ([fastapi.Request]) as [RequestInfo] reads it.
    Its [headers], [cookies] and [query_params] properties build their
    object on first use and return that same object from then on, so the
    request is given by the references to its headers object, to its
    cookies dictionary and to its query parameters, whose items are kept
    in the dictionary [_dict]. *)
Module QueryParams.
Record t : Type := {
  _dict : loc;
  _list : list (string * string);
}.
End QueryParams.

Module Request.
Record t : Type := {
  headers : loc;
  cookies : loc;
  query_params : QueryParams.t;
}.
End Request.

Module RequestInfo.

(** The slots of a [RequestInfo]. *)
Record t : Type := {
  body : PyValue;
  headers : loc;
  _cookies : loc;
  _query_params : loc;
  _request : Request.t;
}.

Definition __init__ (request : Request.t) (body : PyValue) (h : Heap) : result (t * Heap) :=
  copied <- mutablecopy (Request.headers request) h ;;
  Ok ({| body := body;
         headers := fst copied;
         _cookies := Request.cookies request;
         _query_params := QueryParams._dict (Request.query_params request);
         _request := request |}, snd copied).

(** The two properties; neither has a setter. *)
Definition cookies (self : t) : loc := _cookies self.

Definition query_params (self : t) : loc := _query_params self.

End RequestInfo.

(** The attributes of the transport response ([fastapi.Response]) that
    [ResponseInfo] reads and writes, on the response object at [self]. *)
Module Response.

Definition status_code (self : loc) (h : Heap) : result Z :=
  match h !! self with
  | Some (OResponse status_code _) => Ok status_code
  | _ => Raise (AttributeError "object has no attribute 'status_code'")
  end.

Definition set_status_code (self : loc) (value : Z) (h : Heap) : result Heap :=
  match h !! self with
  | Some (OResponse _ headers) => Ok (<[self := OResponse value headers]> h)
  | _ => Raise (AttributeError "object has no attribute 'status_code'")
  end.

Definition headers (self : loc) (h : Heap) : result loc :=
  match h !! self with
  | Some (OResponse _ headers) => Ok headers
  | _ => Raise (AttributeError "object has no attribute 'headers'")
  end.

End Response.

(** The two methods of the transport response that [ResponseInfo]
    forwards to: each receives the response it is bound to and the
    arguments of the call, and acts on the store. *)
Class TransportResponse : Type := {
  Response_set_cookie : loc -> CallArgs -> Heap -> result PyValue * Heap;
  Response_delete_cookie : loc -> CallArgs -> Heap -> result PyValue * Heap;
}.

(** Modelled from the spec: [same_definition_as_in] comes from
    [cadwyn._utils], which is not among the sources at hand.  The spec has
    the cookie operations "forward to the transport response", so the
    decorator only lends the decorated method the signature of [t] and
    returns the method as it is. *)
Definition same_definition_as_in {T F : Type} (t : T) (f : F) : F := f.

Module ResponseInfo.

(** The slots of a [ResponseInfo]. *)
Record t : Type := {
  body : PyValue;
  _response : loc;
}.

Definition __init__ (response : loc) (body : PyValue) : t :=
  {| body := body; _response := response |}.

(** [status_code] getter. *)
Definition status_code (self : t) (h : Heap) : result Z :=
  Response.status_code (_response self) h.

(** [status_code] setter. *)
Definition set_status_code (self : t) (value : Z) (h : Heap) : result Heap :=
  Response.set_status_code (_response self) value h.

Definition headers (self : t) (h : Heap) : result loc :=
  Response.headers (_response self) h.

Definition set_cookie `{TransportResponse} : t -> CallArgs -> Heap -> result PyValue * Heap :=
  same_definition_as_in Response_set_cookie
    (fun self a h => Response_set_cookie (_response self) a h).

Definition delete_cookie `{TransportResponse} : t -> CallArgs -> Heap -> result PyValue * Heap :=
  same_definition_as_in Response_delete_cookie
    (fun self a h => Response_delete_cookie (_response self) a h).

End ResponseInfo.

(** ** Data-migration instructions *)

(** The state of an [_AlterDataInstruction] once constructed: the
    dataclass fields [transformer] and [owner] ([field(init=False)], so
    unset until [__set_name__] runs) and the attributes
    [functools.update_wrapper] copies over from the transformer. *)
Record _AlterDataInstruction : Type := {
  transformer : PyFunction;
  owner : option PyClass;
  __module__ : string;
  __name__ : string;
  __qualname__ : string;
  __doc__ : option string;
  __wrapped__ : PyFunction;
}.

Definition must_have_message (transformer : PyFunction) (_payload_arg_name : string) : string :=
  "Method '" +:+ fn_name transformer +:+ "' must have 2 parameters: cls and " +:+ _payload_arg_name.

(** [functools.update_wrapper(self, self.transformer)]. *)
Definition update_wrapper (transformer : PyFunction) : _AlterDataInstruction :=
  {| transformer := transformer;
     owner := None;
     __module__ := fn_module transformer;
     __name__ := fn_name transformer;
     __qualname__ := fn_qualname transformer;
     __doc__ := fn_doc transformer;
     __wrapped__ := transformer |}.

(** The generated [__init__] of the base followed by [__post_init__],
    for a class whose [_payload_arg_name] is given. *)
Definition __post_init__ (_payload_arg_name : string) (transformer : PyFunction)
    : result _AlterDataInstruction :=
  if bool_decide (signature_parameters transformer <> [_payload_arg_name]) then
    Raise (ValueError (must_have_message transformer _payload_arg_name))
  else
    Ok (update_wrapper transformer).

(** The class attribute [_payload_arg_name] of the two bases. *)
Definition _BaseAlterRequestInstruction_payload_arg_name : string := "request".

Definition _BaseAlterResponseInstruction_payload_arg_name : string := "response".

(** Instances of the four concrete instruction classes. *)
Inductive Instruction : Type :=
| MkAlterRequestBySchemaInstruction (base : _AlterDataInstruction) (schema : PyClass)
| MkAlterRequestByPathInstruction (base : _AlterDataInstruction) (path : string) (methods : gset string)
| MkAlterResponseBySchemaInstruction (base : _AlterDataInstruction) (schema : PyClass)
| MkAlterResponseByPathInstruction (base : _AlterDataInstruction) (path : string) (methods : gset string).

(** Calling the classes. *)
Definition AlterRequestBySchemaInstruction (transformer : PyFunction) (schema : PyClass)
    : result Instruction :=
  base <- __post_init__ _BaseAlterRequestInstruction_payload_arg_name transformer ;;
  Ok (MkAlterRequestBySchemaInstruction base schema).

Definition AlterRequestByPathInstruction (transformer : PyFunction) (path : string)
    (methods : gset string) : result Instruction :=
  base <- __post_init__ _BaseAlterRequestInstruction_payload_arg_name transformer ;;
  Ok (MkAlterRequestByPathInstruction base path methods).

Definition AlterResponseBySchemaInstruction (transformer : PyFunction) (schema : PyClass)
    : result Instruction :=
  base <- __post_init__ _BaseAlterResponseInstruction_payload_arg_name transformer ;;
  Ok (MkAlterResponseBySchemaInstruction base schema).

Definition AlterResponseByPathInstruction (transformer : PyFunction) (path : string)
    (methods : gset string) : result Instruction :=
  base <- __post_init__ _BaseAlterResponseInstruction_payload_arg_name transformer ;;
  Ok (MkAlterResponseByPathInstruction base path methods).

Definition instruction_base (i : Instruction) : _AlterDataInstruction :=
  match i with
  | MkAlterRequestBySchemaInstruction base _
  | MkAlterRequestByPathInstruction base _ _
  | MkAlterResponseBySchemaInstruction base _
  | MkAlterResponseByPathInstruction base _ _ => base
  end.

(** The fields of the concrete classes; [None] on a class without the
    field. *)
Definition getattr_schema (self : Instruction) : option PyClass :=
  match self with
  | MkAlterRequestBySchemaInstruction _ schema
  | MkAlterResponseBySchemaInstruction _ schema => Some schema
  | _ => None
  end.

Definition getattr_path (self : Instruction) : option string :=
  match self with
  | MkAlterRequestByPathInstruction _ path _
  | MkAlterResponseByPathInstruction _ path _ => Some path
  | _ => None
  end.

Definition getattr_methods (self : Instruction) : option (gset string) :=
  match self with
  | MkAlterRequestByPathInstruction _ _ methods
  | MkAlterResponseByPathInstruction _ _ methods => Some methods
  | _ => None
  end.

(** [self._payload_arg_name], found on the class of [self]. *)
Definition _payload_arg_name (self : Instruction) : string :=
  match self with
  | MkAlterRequestBySchemaInstruction _ _
  | MkAlterRequestByPathInstruction _ _ _ => _BaseAlterRequestInstruction_payload_arg_name
  | MkAlterResponseBySchemaInstruction _ _
  | MkAlterResponseByPathInstruction _ _ _ => _BaseAlterResponseInstruction_payload_arg_name
  end.

Definition with_base (f : _AlterDataInstruction -> _AlterDataInstruction) (i : Instruction)
    : Instruction :=
  match i with
  | MkAlterRequestBySchemaInstruction base schema =>
      MkAlterRequestBySchemaInstruction (f base) schema
  | MkAlterRequestByPathInstruction base path methods =>
      MkAlterRequestByPathInstruction (f base) path methods
  | MkAlterResponseBySchemaInstruction base schema =>
      MkAlterResponseBySchemaInstruction (f base) schema
  | MkAlterResponseByPathInstruction base path methods =>
      MkAlterResponseByPathInstruction (f base) path methods
  end.

(** [__set_name__(self, owner, name)]: the hook run on an instruction
    bound to a name in a class body. *)
Definition __set_name__ (self : Instruction) (owner : PyClass) (name : string) : Instruction :=
  with_base (fun base =>
    {| transformer := transformer base;
       owner := Some owner;
       __module__ := __module__ base;
       __name__ := __name__ base;
       __qualname__ := __qualname__ base;
       __doc__ := __doc__ base;
       __wrapped__ := __wrapped__ base |}) self.

(** Reading [self.owner]. *)
Definition getattr_owner (base : _AlterDataInstruction) : result PyClass :=
  match owner base with
  | Some c => Ok c
  | None => Raise (AttributeError "object has no attribute 'owner'")
  end.

(** Functions and classes are equal when they are the same object. *)
Definition function_eq (f g : PyFunction) : bool := bool_decide (fn_id f = fn_id g).

Definition class_eq (c d : PyClass) : bool := bool_decide (cls_id c = cls_id d).

(** The [__eq__] the dataclass decorator generates: instances of the
    same class are compared as the tuples of their fields, instances of
    different classes are not equal. *)
Definition __eq__ (self other : Instruction) : result bool :=
  match self, other with
  | MkAlterRequestBySchemaInstruction b1 s1, MkAlterRequestBySchemaInstruction b2 s2
  | MkAlterResponseBySchemaInstruction b1 s1, MkAlterResponseBySchemaInstruction b2 s2 =>
      o1 <- getattr_owner b1 ;;
      o2 <- getattr_owner b2 ;;
      Ok (function_eq (transformer b1) (transformer b2) && class_eq o1 o2 && class_eq s1 s2)
  | MkAlterRequestByPathInstruction b1 p1 m1, MkAlterRequestByPathInstruction b2 p2 m2
  | MkAlterResponseByPathInstruction b1 p1 m1, MkAlterResponseByPathInstruction b2 p2 m2 =>
      o1 <- getattr_owner b1 ;;
      o2 <- getattr_owner b2 ;;
      Ok (function_eq (transformer b1) (transformer b2) && class_eq o1 o2
          && bool_decide (p1 = p2) && bool_decide (m1 = m2))
  | _, _ => Ok false
  end.

(** The argument of a transformer: a request view or a response view. *)
Inductive Payload : Type :=
| of_request (request : RequestInfo.t)
| of_response (response : ResponseInfo.t).

(** What calling a function object on one positional argument does: it
    may change the store, and returns a value or raises. *)
Class PyCall : Type := {
  call_function : PyFunction -> Payload -> Heap -> result PyValue * Heap;
}.

(** [__call__(self, __request_or_response, /)]. *)
Definition __call__ `{PyCall} (self : Instruction) (__request_or_response : Payload) (h : Heap)
    : result PyValue * Heap :=
  call_function (transformer (instruction_base self)) __request_or_response h.

(** ** Registration decorators *)

(** The first positional argument: a path or a schema. *)
Inductive SchemaOrPath : Type :=
| a_str (path : string)
| a_type (schema : PyClass).

Definition isinstance_str (schema_or_path : SchemaOrPath) : bool :=
  match schema_or_path with a_str _ => true | a_type _ => false end.

Definition path_without_methods_message : string :=
  "If path was provided as a first argument, methods must be provided as a second argument".

Definition schema_with_methods_message : string :=
  "If schema was provided as a first argument, methods argument should not be provided".

Definition _validate_decorator_args (schema_or_path : SchemaOrPath)
    (methods : option (list string)) : result unit :=
  if isinstance_str schema_or_path then
    match methods with
    | None => Raise (ValueError path_without_methods_message)
    | Some _ => Ok tt
    end
  else
    match methods with
    | Some _ => Raise (ValueError schema_with_methods_message)
    | None => Ok tt
    end.

(** [set(cast(list, methods))]. *)
Definition set_of_methods (methods : option (list string)) : result (gset string) :=
  match methods with
  | Some l => Ok (list_to_set l)
  | None => Raise (TypeError "'NoneType' object is not iterable")
  end.

(** What the two registration functions return. *)
Abbreviation Decorator := (PyFunction -> result Instruction).

Definition convert_request_to_next_version_for (schema_or_path : SchemaOrPath)
    (methods : option (list string)) : result Decorator :=
  _validate_decorator_args schema_or_path methods ;;;
  Ok (fun transformer =>
        match schema_or_path with
        | a_str path =>
            ms <- set_of_methods methods ;;
            AlterRequestByPathInstruction transformer path ms
        | a_type schema =>
            AlterRequestBySchemaInstruction transformer schema
        end).

Definition convert_response_to_previous_version_for (schema_or_path : SchemaOrPath)
    (methods : option (list string)) : result Decorator :=
  _validate_decorator_args schema_or_path methods ;;;
  Ok (fun transformer =>
        match schema_or_path with
        | a_str path =>
            ms <- set_of_methods methods ;;
            AlterResponseByPathInstruction transformer path ms
        | a_type schema =>
            AlterResponseBySchemaInstruction transformer schema
        end).

(** The whole of a registration: the function is called with its
    arguments, the decorator it returns is applied to the transformer. *)
Definition register_request (schema_or_path : SchemaOrPath) (methods : option (list string))
    (transformer : PyFunction) : result Instruction :=
  decorator <- convert_request_to_next_version_for schema_or_path methods ;;
  decorator transformer.

Definition register_response (schema_or_path : SchemaOrPath) (methods : option (list string))
    (transformer : PyFunction) : result Instruction :=
  decorator <- convert_response_to_previous_version_for schema_or_path methods ;;
  decorator transformer.

(** ** Sample declarations *)

(** A function [def name(params...)] of a version module. *)
Definition sample_function (id : positive) (name : string) (params : list string) : PyFunction :=
  {| fn_id := id;
     fn_module := "versions.v2001_01_01";
     fn_name := name;
     fn_qualname := "MyVersionChange." +:+ name;
     fn_doc := None;
     fn_parameters := map (fun n => Build_SigParameter n POSITIONAL_OR_KEYWORD) params |}.

Definition migrate_request : PyFunction := sample_function 11 "migrate_request" ["request"].


Definition no_parameters : PyFunction := sample_function 13 "no_parameters" [].

Definition extra_parameter : PyFunction := sample_function 14 "extra_parameter" ["request"; "extra"].

Definition other_name : PyFunction := sample_function 15 "other_name" ["payload"].

Definition UserCreateRequest : PyClass :=
  {| cls_id := 21; cls_module := "schemas.latest.users"; cls_name := "UserCreateRequest" |}.

Definition InternalUserCreateRequest : PyClass :=
  {| cls_id := 22; cls_module := "schemas.internal.users"; cls_name := "InternalUserCreateRequest" |}.

Definition OtherInternalRequest : PyClass :=
  {| cls_id := 23; cls_module := "schemas.internal.other"; cls_name := "OtherInternalRequest" |}.

Definition MyVersionChange : PyClass :=
  {| cls_id := 24; cls_module := "versions.v2001_01_01"; cls_name := "MyVersionChange" |}.

(** A store with the three objects of a request (its headers at 1, its
    cookies at 2, the dictionary of its query parameters at 3) and a
    response at 5 with its headers at 6. *)
Definition sample_heap : Heap :=
  <[1%positive := OHeaders [(String.list_byte_of_string "host", String.list_byte_of_string "example.org")]]>
  (<[2%positive := ODict {["session" := "abc"]}]>
  (<[3%positive := ODict {["page" := "1"]}]>
  (<[5%positive := OResponse 200 6]>
  (<[6%positive := OHeaders []]> ∅)))).

Definition sample_request : Request.t :=
  {| Request.headers := 1;
     Request.cookies := 2;
     Request.query_params :=
       {| QueryParams._dict := 3; QueryParams._list := [("page", "1")] |} |}.

(** A transport response whose [set_cookie(key, ...)] appends a
    [set-cookie] header for [key], and whose [delete_cookie] does the
    same. *)
Definition sample_set_cookie (self : loc) (a : CallArgs) (h : Heap) : result PyValue * Heap :=
  match Response.headers self h, call_args a with
  | Ok headers, VStr key :: _ =>
      match headers_append headers (String.list_byte_of_string "set-cookie") (String.list_byte_of_string key) h with
      | Ok h' => (Ok VNone, h')
      | Raise e => (Raise e, h)
      end
  | Raise e, _ => (Raise e, h)
  | _, _ => (Raise (TypeError "set_cookie() missing 1 required positional argument: 'key'"), h)
  end.

Definition sample_transport : TransportResponse :=
  {| Response_set_cookie := sample_set_cookie;
     Response_delete_cookie := sample_set_cookie |}.

(** Calls in which [migrate_request] stamps the cookies of the request
    it is given and every other function does nothing. *)
Definition sample_call (f : PyFunction) (p : Payload) (h : Heap) : result PyValue * Heap :=
  match p with
  | of_request request =>
      if bool_decide (fn_id f = fn_id migrate_request) then
        match dict_setitem (RequestInfo.cookies request) "migrated" "yes" h with
        | Ok h' => (Ok VNone, h')
        | Raise e => (Raise e, h)
        end
      else (Ok VNone, h)
  | of_response _ => (Ok VNone, h)
  end.

Definition sample_calls : PyCall := {| call_function := sample_call |}.

(* ===================================================================== *)
(** * universi/structure/endpoints.py                                     *)
(* ===================================================================== *)

Module Endpoints.

(** Modelled from the spec: [Sentinel] comes from [universi._utils],
    which is not among the sources at hand.  The spec has it as a
    dedicated "unset" tagged value, distinct from any legitimate
    attribute value, [None] included. *)
Definition Sentinel : PyValue := VUnset.

(** [v is Sentinel]. *)
Definition is_Sentinel (v : PyValue) : bool :=
  match v with VUnset => true | _ => false end.

(** The names of the endpoint attributes, which are also the keyword
    parameters of [had]. *)
Inductive AttrName : Type :=
| a_path
| a_status_code
| a_tags
| a_dependencies
| a_summary
| a_description
| a_response_description
| a_responses
| a_deprecated
| a_methods
| a_operation_id
| a_include_in_schema
| a_response_class
| a_name
| a_callbacks
| a_openapi_extra
| a_generate_unique_id_function.

Module EndpointAttributesPayload.
Record t : Type := {
  path : PyValue;
  status_code : PyValue;
  tags : PyValue;
  dependencies : PyValue;
  summary : PyValue;
  description : PyValue;
  response_description : PyValue;
  responses : PyValue;
  deprecated : PyValue;
  methods : PyValue;
  operation_id : PyValue;
  include_in_schema : PyValue;
  response_class : PyValue;
  name : PyValue;
  callbacks : PyValue;
  openapi_extra : PyValue;
  generate_unique_id_function : PyValue;
}.

(** [getattr(payload, a)]. *)
Definition get (a : AttrName) (payload : t) : PyValue :=
  match a with
  | a_path => path payload
  | a_status_code => status_code payload
  | a_tags => tags payload
  | a_dependencies => dependencies payload
  | a_summary => summary payload
  | a_description => description payload
  | a_response_description => response_description payload
  | a_responses => responses payload
  | a_deprecated => deprecated payload
  | a_methods => methods payload
  | a_operation_id => operation_id payload
  | a_include_in_schema => include_in_schema payload
  | a_response_class => response_class payload
  | a_name => name payload
  | a_callbacks => callbacks payload
  | a_openapi_extra => openapi_extra payload
  | a_generate_unique_id_function => generate_unique_id_function payload
  end.
End EndpointAttributesPayload.

Module EndpointHadInstruction.
Record t : Type := {
  endpoint_path : string;
  endpoint_methods : list string;
  attributes : EndpointAttributesPayload.t;
}.
End EndpointHadInstruction.

Module EndpointExistedInstruction.
Record t : Type := {
  endpoint_path : string;
  endpoint_methods : list string;
}.
End EndpointExistedInstruction.

Module EndpointDidntExistInstruction.
Record t : Type := {
  endpoint_path : string;
  endpoint_methods : list string;
}.
End EndpointDidntExistInstruction.

(** The keyword arguments of a call of [had]: a value for each keyword
    that is given. *)
Abbreviation Kwargs := (AttrName -> option PyValue).

(** The value a keyword parameter of [had] is bound to: the argument,
    or the default [Sentinel]. *)
Definition bound (kwargs : AttrName -> option PyValue) (a : AttrName) : PyValue :=
  match kwargs a with
  | Some v => v
  | None => Sentinel
  end.

Module EndpointInstructionFactory.
Record t : Type := {
  endpoint_path : string;
  endpoint_methods : list string;
}.

Definition didnt_exist (self : t) : EndpointDidntExistInstruction.t :=
  EndpointDidntExistInstruction.Build_t (endpoint_path self) (endpoint_methods self).

Definition existed (self : t) : EndpointExistedInstruction.t :=
  EndpointExistedInstruction.Build_t (endpoint_path self) (endpoint_methods self).

Definition had (self : t) (kwargs : AttrName -> option PyValue) : EndpointHadInstruction.t :=
  {| EndpointHadInstruction.endpoint_path := endpoint_path self;
     EndpointHadInstruction.endpoint_methods := endpoint_methods self;
     EndpointHadInstruction.attributes :=
       {|
         EndpointAttributesPayload.path := bound kwargs a_path;
         EndpointAttributesPayload.status_code := bound kwargs a_status_code;
         EndpointAttributesPayload.tags := bound kwargs a_tags;
         EndpointAttributesPayload.dependencies := bound kwargs a_dependencies;
         EndpointAttributesPayload.summary := bound kwargs a_summary;
         EndpointAttributesPayload.description := bound kwargs a_description;
         EndpointAttributesPayload.response_description := bound kwargs a_response_description;
         EndpointAttributesPayload.responses := bound kwargs a_responses;
         EndpointAttributesPayload.deprecated := bound kwargs a_deprecated;
         EndpointAttributesPayload.methods := bound kwargs a_methods;
         EndpointAttributesPayload.operation_id := bound kwargs a_operation_id;
         EndpointAttributesPayload.include_in_schema := bound kwargs a_include_in_schema;
         EndpointAttributesPayload.response_class := bound kwargs a_response_class;
         EndpointAttributesPayload.name := bound kwargs a_name;
         EndpointAttributesPayload.callbacks := bound kwargs a_callbacks;
         EndpointAttributesPayload.openapi_extra := bound kwargs a_openapi_extra;
         EndpointAttributesPayload.generate_unique_id_function := bound kwargs a_generate_unique_id_function
       |} |}.
End EndpointInstructionFactory.

Definition endpoint (endpoint_path : string) (endpoint_methods : list string)
    : EndpointInstructionFactory.t :=
  EndpointInstructionFactory.Build_t endpoint_path endpoint_methods.

(** [AlterEndpointSubInstruction]: the union of the three classes. *)
Inductive AlterEndpointSubInstruction : Type :=
| DidntExist (i : EndpointDidntExistInstruction.t)
| Existed (i : EndpointExistedInstruction.t)
| Had (i : EndpointHadInstruction.t).

(** The pair an endpoint instruction is filed under. *)
Definition key (i : AlterEndpointSubInstruction) : string * list string :=
  match i with
  | DidntExist i =>
      (EndpointDidntExistInstruction.endpoint_path i,
       EndpointDidntExistInstruction.endpoint_methods i)
  | Existed i =>
      (EndpointExistedInstruction.endpoint_path i,
       EndpointExistedInstruction.endpoint_methods i)
  | Had i =>
      (EndpointHadInstruction.endpoint_path i,
       EndpointHadInstruction.endpoint_methods i)
  end.

(** [had(status_code=201, description=None)]. *)
Definition sample_kwargs (a : AttrName) : option PyValue :=
  match a with
  | a_status_code => Some (VInt 201)
  | a_description => Some VNone
  | _ => None
  end.

End Endpoints.

(* ===================================================================== *)
(** * Properties                                                          *)
(* ===================================================================== *)

(** ** Results and binds *)

Lemma bind_Ok {A B : Type} (a : A) (k : A -> result B) : bind (Ok a) k = k a.
Proof. reflexivity. Qed.

Lemma bind_Raise {A B : Type} (e : PyExc) (k : A -> result B) : bind (Raise e) k = Raise e.
Proof. reflexivity. Qed.

Lemma bind_Ok_inv {A B : Type} (r : result A) (k : A -> result B) (b : B) :
  bind r k = Ok b -> exists a, r = Ok a /\ k a = Ok b.
Proof. destruct r as [a|e]; simpl; [eauto | discriminate]. Qed.

(** ** The signature check *)

Lemma post_init_accepts (name : string) (transformer : PyFunction) :
  signature_parameters transformer = [name] ->
  __post_init__ name transformer = Ok (update_wrapper transformer).
Proof.
  intros Hsig. unfold __post_init__.
  rewrite bool_decide_eq_false_2; [reflexivity | intros Hne; exact (Hne Hsig)].
Qed.

Lemma post_init_rejects (name : string) (transformer : PyFunction) :
  signature_parameters transformer <> [name] ->
  __post_init__ name transformer = Raise (ValueError (must_have_message transformer name)).
Proof.
  intros Hsig. unfold __post_init__. by rewrite bool_decide_eq_true_2.
Qed.

Lemma post_init_Ok_inv (name : string) (transformer : PyFunction) (base : _AlterDataInstruction) :
  __post_init__ name transformer = Ok base ->
  signature_parameters transformer = [name] /\ base = update_wrapper transformer.
Proof.
  unfold __post_init__. case_bool_decide as Hsig; [discriminate |].
  intros [= <-]. split; [| reflexivity].
  destruct (decide (signature_parameters transformer = [name])); [assumption | contradiction].
Qed.

(** ** Validation of the decorator arguments *)

(** C1.  A path without methods, and a schema with methods, make
    [convert_request_to_next_version_for] and
    [convert_response_to_previous_version_for] raise a [ValueError] that
    says what is wrong.  The call itself raises, so no decorator comes
    back and no instruction class is ever called: the whole registration
    ends in that error whatever the transformer is.  The two other
    combinations, a schema alone and a path with methods, pass the
    validation and yield a decorator. *)
Theorem C1_decorator_args_validated_before_construction
    (path : string) (schema : PyClass) (ms : list string) (transformer : PyFunction) :
  (convert_request_to_next_version_for (a_str path) None
     = Raise (ValueError "If path was provided as a first argument, methods must be provided as a second argument")
   /\ convert_response_to_previous_version_for (a_str path) None
     = Raise (ValueError "If path was provided as a first argument, methods must be provided as a second argument")
   /\ register_request (a_str path) None transformer = Raise (ValueError path_without_methods_message)
   /\ register_response (a_str path) None transformer = Raise (ValueError path_without_methods_message))
  /\ (convert_request_to_next_version_for (a_type schema) (Some ms)
     = Raise (ValueError "If schema was provided as a first argument, methods argument should not be provided")
   /\ convert_response_to_previous_version_for (a_type schema) (Some ms)
     = Raise (ValueError "If schema was provided as a first argument, methods argument should not be provided")
   /\ register_request (a_type schema) (Some ms) transformer = Raise (ValueError schema_with_methods_message)
   /\ register_response (a_type schema) (Some ms) transformer = Raise (ValueError schema_with_methods_message))
  /\ (_validate_decorator_args (a_type schema) None = Ok tt
   /\ _validate_decorator_args (a_str path) (Some ms) = Ok tt)
  /\ (is_ok (convert_request_to_next_version_for (a_type schema) None) = true
   /\ is_ok (convert_request_to_next_version_for (a_str path) (Some ms)) = true
   /\ is_ok (convert_response_to_previous_version_for (a_type schema) None) = true
   /\ is_ok (convert_response_to_previous_version_for (a_str path) (Some ms)) = true).
Proof. repeat split. Qed.

(** ** The transformer's signature *)

(** C2.  An instruction class called with a transformer raises a
    [ValueError], there and then, unless the names of the transformer's
    declared parameters are exactly [["request"]] (request
    instructions) or [["response"]] (response instructions); with that
    signature the call yields the instruction.  Hence every instruction
    there is carries a transformer of the right signature, and nothing
    is left to be found out when a payload is migrated. *)
Theorem C2_transformer_signature_checked_at_construction
    (f : PyFunction) (schema : PyClass) (path : string) (methods : gset string) :
  (signature_parameters f = ["request"] ->
     AlterRequestBySchemaInstruction f schema
       = Ok (MkAlterRequestBySchemaInstruction (update_wrapper f) schema)
     /\ AlterRequestByPathInstruction f path methods
       = Ok (MkAlterRequestByPathInstruction (update_wrapper f) path methods))
  /\ (signature_parameters f <> ["request"] ->
     AlterRequestBySchemaInstruction f schema
       = Raise (ValueError ("Method '" +:+ fn_name f +:+ "' must have 2 parameters: cls and request"))
     /\ AlterRequestByPathInstruction f path methods
       = Raise (ValueError ("Method '" +:+ fn_name f +:+ "' must have 2 parameters: cls and request")))
  /\ (signature_parameters f = ["response"] ->
     AlterResponseBySchemaInstruction f schema
       = Ok (MkAlterResponseBySchemaInstruction (update_wrapper f) schema)
     /\ AlterResponseByPathInstruction f path methods
       = Ok (MkAlterResponseByPathInstruction (update_wrapper f) path methods))
  /\ (signature_parameters f <> ["response"] ->
     AlterResponseBySchemaInstruction f schema
       = Raise (ValueError ("Method '" +:+ fn_name f +:+ "' must have 2 parameters: cls and response"))
     /\ AlterResponseByPathInstruction f path methods
       = Raise (ValueError ("Method '" +:+ fn_name f +:+ "' must have 2 parameters: cls and response")))
  /\ (forall i : Instruction,
       AlterRequestBySchemaInstruction f schema = Ok i
       \/ AlterRequestByPathInstruction f path methods = Ok i
       \/ AlterResponseBySchemaInstruction f schema = Ok i
       \/ AlterResponseByPathInstruction f path methods = Ok i ->
       signature_parameters (transformer (instruction_base i)) = [_payload_arg_name i]).
Proof.
  unfold AlterRequestBySchemaInstruction, AlterRequestByPathInstruction,
    AlterResponseBySchemaInstruction, AlterResponseByPathInstruction.
  repeat split.
  1-2, 5-6: rewrite post_init_accepts by assumption; reflexivity.
  1-4: rewrite post_init_rejects by assumption; reflexivity.
  intros i Hi.
  destruct Hi as [Hi | [Hi | [Hi | Hi]]];
    apply bind_Ok_inv in Hi as (base & Hbase & [= <-]);
    apply post_init_Ok_inv in Hbase as [Hsig ->]; exact Hsig.
Qed.

(** C2 at a transformer without parameters, one with a second parameter
    and one whose parameter has another name, next to one that is
    accepted. *)
Lemma C2_transformer_signature_checked_at_construction_witness :
  AlterRequestBySchemaInstruction no_parameters UserCreateRequest
    = Raise (ValueError "Method 'no_parameters' must have 2 parameters: cls and request")
  /\ AlterRequestByPathInstruction extra_parameter "/users" {["POST"]}
    = Raise (ValueError "Method 'extra_parameter' must have 2 parameters: cls and request")
  /\ AlterResponseBySchemaInstruction other_name UserCreateRequest
    = Raise (ValueError "Method 'other_name' must have 2 parameters: cls and response")
  /\ AlterResponseBySchemaInstruction migrate_request UserCreateRequest
    = Raise (ValueError "Method 'migrate_request' must have 2 parameters: cls and response")
  /\ AlterRequestBySchemaInstruction migrate_request UserCreateRequest
    = Ok (MkAlterRequestBySchemaInstruction (update_wrapper migrate_request) UserCreateRequest).
Proof.
  refine (conj _ (conj _ (conj _ (conj _ _)))).
  - apply (C2_transformer_signature_checked_at_construction
             no_parameters UserCreateRequest "/users" {["POST"]}).
    vm_compute; discriminate.
  - apply (C2_transformer_signature_checked_at_construction
             extra_parameter UserCreateRequest "/users" {["POST"]}).
    vm_compute; discriminate.
  - apply (C2_transformer_signature_checked_at_construction
             other_name UserCreateRequest "/users" {["POST"]}).
    vm_compute; discriminate.
  - apply (C2_transformer_signature_checked_at_construction
             migrate_request UserCreateRequest "/users" {["POST"]}).
    vm_compute; discriminate.
  - apply (C2_transformer_signature_checked_at_construction
             migrate_request UserCreateRequest "/users" {["POST"]}).
    reflexivity.
Defined.

(** ** What the decorators build *)

Lemma convert_request_Ok_inv (schema_or_path : SchemaOrPath) (methods : option (list string))
    (d : PyFunction -> result Instruction) :
  convert_request_to_next_version_for schema_or_path methods = Ok d ->
  (exists path ms, schema_or_path = a_str path /\ methods = Some ms
     /\ d = fun f => AlterRequestByPathInstruction f path (list_to_set ms))
  \/ (exists schema, schema_or_path = a_type schema /\ methods = None
     /\ d = fun f => AlterRequestBySchemaInstruction f schema).
Proof.
  destruct schema_or_path as [path|schema], methods as [ms|]; try discriminate;
    intros [= <-]; [left | right]; eauto.
Qed.

Lemma convert_response_Ok_inv (schema_or_path : SchemaOrPath) (methods : option (list string))
    (d : PyFunction -> result Instruction) :
  convert_response_to_previous_version_for schema_or_path methods = Ok d ->
  (exists path ms, schema_or_path = a_str path /\ methods = Some ms
     /\ d = fun f => AlterResponseByPathInstruction f path (list_to_set ms))
  \/ (exists schema, schema_or_path = a_type schema /\ methods = None
     /\ d = fun f => AlterResponseBySchemaInstruction f schema).
Proof.
  destruct schema_or_path as [path|schema], methods as [ms|]; try discriminate;
    intros [= <-]; [left | right]; eauto.
Qed.



(** ** Repeating a registration, and attachment *)

Lemma set_name_owner (i : Instruction) (version : PyClass) (name : string) :
  owner (instruction_base (__set_name__ i version name)) = Some version.
Proof. destruct i; reflexivity. Qed.

Lemma eq_after_set_name (i : Instruction) (version : PyClass) (name1 name2 : string) :
  __eq__ (__set_name__ i version name1) (__set_name__ i version name2) = Ok true.
Proof.
  destruct i; simpl; unfold function_eq, class_eq;
    rewrite ?bool_decide_eq_true_2 by reflexivity; reflexivity.
Qed.

Lemma decorated_fresh (d : PyFunction -> result Instruction) (f : PyFunction) (i : Instruction) :
  (exists schema_or_path methods,
     convert_request_to_next_version_for schema_or_path methods = Ok d
     \/ convert_response_to_previous_version_for schema_or_path methods = Ok d) ->
  d f = Ok i ->
  instruction_base i = update_wrapper f.
Proof.
  intros (schema_or_path & methods & [Hd | Hd]) Hi;
    [apply convert_request_Ok_inv in Hd | apply convert_response_Ok_inv in Hd];
    destruct Hd as [(path & ms & _ & _ & ->) | (schema & _ & _ & ->)];
    apply bind_Ok_inv in Hi as (base & Hbase & [= <-]);
    apply post_init_Ok_inv in Hbase as [_ ->]; reflexivity.
Qed.

Lemma decorated_value (schema_or_path : SchemaOrPath) (methods : option (list string))
    (d : PyFunction -> result Instruction) (f : PyFunction) (i : Instruction) :
  convert_request_to_next_version_for schema_or_path methods = Ok d
  \/ convert_response_to_previous_version_for schema_or_path methods = Ok d ->
  d f = Ok i ->
  instruction_base i = update_wrapper f
  /\ getattr_schema i
     = match schema_or_path with a_type schema => Some schema | a_str _ => None end
  /\ getattr_path i
     = match schema_or_path with a_str path => Some path | a_type _ => None end
  /\ getattr_methods i
     = match schema_or_path with a_str _ => list_to_set <$> methods | a_type _ => None end.
Proof.
  intros [Hd | Hd] Hi;
    [apply convert_request_Ok_inv in Hd | apply convert_response_Ok_inv in Hd];
    destruct Hd as [(path & ms & -> & -> & ->) | (schema & -> & -> & ->)];
    apply bind_Ok_inv in Hi as (base & Hbase & [= <-]);
    apply post_init_Ok_inv in Hbase as [_ ->]; by repeat split.
Qed.

Lemma decorated_direction (schema_or_path : SchemaOrPath) (methods : option (list string))
    (d : PyFunction -> result Instruction) (f : PyFunction) (i : Instruction) :
  d f = Ok i ->
  (convert_request_to_next_version_for schema_or_path methods = Ok d ->
   _payload_arg_name i = "request")
  /\ (convert_response_to_previous_version_for schema_or_path methods = Ok d ->
      _payload_arg_name i = "response").
Proof.
  intros Hi. split; intros Hd;
    [apply convert_request_Ok_inv in Hd | apply convert_response_Ok_inv in Hd];
    destruct Hd as [(path & ms & -> & -> & ->) | (schema & -> & -> & ->)];
    apply bind_Ok_inv in Hi as (base & Hbase & [= <-]); reflexivity.
Qed.

(** The claim of C9 fails on two registrations of [migrate_request]
    for [UserCreateRequest]: compared as they come out of the
    decorator, the two instructions raise instead of being equal, and
    attached to two different classes they are unequal. *)
Lemma C9_registered_instructions_not_equal :
  exists (d1 d2 : PyFunction -> result Instruction) (i1 i2 : Instruction),
    convert_request_to_next_version_for (a_type UserCreateRequest) None = Ok d1
    /\ convert_request_to_next_version_for (a_type UserCreateRequest) None = Ok d2
    /\ d1 migrate_request = Ok i1
    /\ d2 migrate_request = Ok i2
    /\ __eq__ i1 i2 = Raise (AttributeError "object has no attribute 'owner'")
    /\ __eq__ (__set_name__ i1 MyVersionChange "migrate_request")
              (__set_name__ i2 OtherInternalRequest "migrate_request")
       = Ok false.
Proof.
  eexists _, _, _, _.
  split; [reflexivity |]. split; [reflexivity |].
  split; [reflexivity |]. split; [reflexivity |].
  split; reflexivity.
Qed.

(** C9, amended.  Registering the same transformer with the same
    arguments a second time builds an instruction with the same fields
    as the first: both wrap that transformer, carry the attributes
    copied from it and have no owner, and both have the class and the
    matcher the arguments call for.  As long as they have no owner the
    generated [__eq__] raises on them.  [__set_name__] records the
    owning class and changes no other field, so an attached instruction
    has an owner; two attached registrations compare equal exactly when
    their owners are the same class. *)
Theorem C9_registrations_agree_and_compare_by_owner
    (schema_or_path : SchemaOrPath) (methods : option (list string)) (f : PyFunction)
    (d1 d2 : PyFunction -> result Instruction) (i1 i2 : Instruction)
    (version1 version2 : PyClass) (name1 name2 : string)
    (Hd : (convert_request_to_next_version_for schema_or_path methods = Ok d1
           /\ convert_request_to_next_version_for schema_or_path methods = Ok d2)
          \/ (convert_response_to_previous_version_for schema_or_path methods = Ok d1
           /\ convert_response_to_previous_version_for schema_or_path methods = Ok d2))
    (H1 : d1 f = Ok i1) (H2 : d2 f = Ok i2) :
  (instruction_base i1
     = {| transformer := f; owner := None;
          __module__ := fn_module f; __name__ := fn_name f;
          __qualname__ := fn_qualname f; __doc__ := fn_doc f; __wrapped__ := f |}
   /\ instruction_base i2 = instruction_base i1
   /\ _payload_arg_name i2 = _payload_arg_name i1
   /\ getattr_schema i1
      = match schema_or_path with a_type schema => Some schema | a_str _ => None end
   /\ getattr_schema i2 = getattr_schema i1
   /\ getattr_path i1
      = match schema_or_path with a_str path => Some path | a_type _ => None end
   /\ getattr_path i2 = getattr_path i1
   /\ getattr_methods i1
      = match schema_or_path with a_str _ => list_to_set <$> methods | a_type _ => None end
   /\ getattr_methods i2 = getattr_methods i1)
  /\ __eq__ i1 i2 = Raise (AttributeError "object has no attribute 'owner'")
  /\ (instruction_base (__set_name__ i1 version1 name1)
       = {| transformer := f; owner := Some version1;
            __module__ := fn_module f; __name__ := fn_name f;
            __qualname__ := fn_qualname f; __doc__ := fn_doc f; __wrapped__ := f |}
      /\ _payload_arg_name (__set_name__ i1 version1 name1) = _payload_arg_name i1
      /\ getattr_schema (__set_name__ i1 version1 name1) = getattr_schema i1
      /\ getattr_path (__set_name__ i1 version1 name1) = getattr_path i1
      /\ getattr_methods (__set_name__ i1 version1 name1) = getattr_methods i1)
  /\ __eq__ (__set_name__ i1 version1 name1) (__set_name__ i2 version2 name2)
     = Ok (bool_decide (cls_id version1 = cls_id version2)).
Proof.
  assert (_payload_arg_name i2 = _payload_arg_name i1) as Hdir.
  { destruct (decorated_direction schema_or_path methods d1 f i1 H1) as [Hq1 Hp1].
    destruct (decorated_direction schema_or_path methods d2 f i2 H2) as [Hq2 Hp2].
    destruct Hd as [[Ha Hb] | [Ha Hb]];
      [rewrite (Hq1 Ha), (Hq2 Hb) | rewrite (Hp1 Ha), (Hp2 Hb)]; reflexivity. }
  destruct (decorated_value schema_or_path methods d1 f i1) as (Hb1 & Hs1 & Hp1 & Hm1);
    [destruct Hd as [[Ha _] | [Ha _]]; eauto | assumption |].
  destruct (decorated_value schema_or_path methods d2 f i2) as (Hb2 & Hs2 & Hp2 & Hm2);
    [destruct Hd as [[_ Hb] | [_ Hb]]; eauto | assumption |].
  rewrite <- Hs1 in Hs2. rewrite <- Hp1 in Hp2. rewrite <- Hm1 in Hm2.
  clear Hd H1 H2.
  destruct i1 as [b1 s1|b1 p1 m1|b1 s1|b1 p1 m1], i2 as [b2 s2|b2 p2 m2|b2 s2|b2 p2 m2];
    simpl in *; try discriminate; subst b1 b2; simplify_eq;
    unfold function_eq, class_eq;
    rewrite ?bool_decide_eq_true_2 by reflexivity;
    rewrite ?andb_true_r; by repeat split.
Qed.

Lemma C9_registrations_agree_and_compare_by_owner_witness :
  let d := fun f => AlterRequestByPathInstruction f "/users" (list_to_set ["POST"]) in
  let i := MkAlterRequestByPathInstruction (update_wrapper migrate_request) "/users" (list_to_set ["POST"]) in
  ((convert_request_to_next_version_for (a_str "/users") (Some ["POST"]) = Ok d
    /\ convert_request_to_next_version_for (a_str "/users") (Some ["POST"]) = Ok d)
   \/ (convert_response_to_previous_version_for (a_str "/users") (Some ["POST"]) = Ok d
    /\ convert_response_to_previous_version_for (a_str "/users") (Some ["POST"]) = Ok d))
  /\ d migrate_request = Ok i
  /\ __eq__ i i = Raise (AttributeError "object has no attribute 'owner'")
  /\ __eq__ (__set_name__ i MyVersionChange "migrate_request")
            (__set_name__ i MyVersionChange "migrate_again")
     = Ok (bool_decide (cls_id MyVersionChange = cls_id MyVersionChange))
  /\ __eq__ (__set_name__ i MyVersionChange "migrate_request")
            (__set_name__ i OtherInternalRequest "migrate_request")
     = Ok (bool_decide (cls_id MyVersionChange = cls_id OtherInternalRequest)).
Proof.
  pose proof (fun version2 name2 =>
                C9_registrations_agree_and_compare_by_owner
                  (a_str "/users") (Some ["POST"]) migrate_request
                  (fun f => AlterRequestByPathInstruction f "/users" (list_to_set ["POST"]))
                  (fun f => AlterRequestByPathInstruction f "/users" (list_to_set ["POST"]))
                  (MkAlterRequestByPathInstruction (update_wrapper migrate_request) "/users"
                     (list_to_set ["POST"]))
                  (MkAlterRequestByPathInstruction (update_wrapper migrate_request) "/users"
                     (list_to_set ["POST"]))
                  MyVersionChange version2 "migrate_request" name2
                  (or_introl (conj eq_refl eq_refl)) eq_refl eq_refl) as Hall.
  cbv zeta. refine (conj (or_introl (conj eq_refl eq_refl)) (conj eq_refl _)).
  destruct (Hall MyVersionChange "migrate_again") as (_ & Hraise & _ & Hsame).
  destruct (Hall OtherInternalRequest "migrate_request") as (_ & _ & _ & Hother).
  exact (conj Hraise (conj Hsame Hother)).
Defined.

(** Before attachment the generated [__eq__] cannot read [owner]. *)
Example eq_before_attachment :
  __eq__ (MkAlterRequestBySchemaInstruction (update_wrapper migrate_request) UserCreateRequest)
         (MkAlterRequestBySchemaInstruction (update_wrapper migrate_request) UserCreateRequest)
  = Raise (AttributeError "object has no attribute 'owner'").
Proof. reflexivity. Qed.

(** ** The internal-representation registry *)

Lemma register_taken (represents cls pre : PyClass) (mapping : gmap positive PyClass) :
  mapping !! cls_id represents = Some pre ->
  internal_body_representation_of represents cls mapping
  = (Raise (TypeError (already_has_message represents pre)), mapping).
Proof. intros Hpre. unfold internal_body_representation_of. by rewrite Hpre. Qed.

Lemma register_free (represents cls : PyClass) (mapping : gmap positive PyClass) :
  mapping !! cls_id represents = None ->
  internal_body_representation_of represents cls mapping
  = (Ok cls, <[cls_id represents := cls]> mapping).
Proof. intros Hfree. unfold internal_body_representation_of. by rewrite Hfree. Qed.

(** An entry of the mapping is never replaced. *)
Lemma register_keeps (represents cls : PyClass) (mapping : gmap positive PyClass)
    (k : positive) (c : PyClass) :
  mapping !! k = Some c ->
  snd (internal_body_representation_of represents cls mapping) !! k = Some c.
Proof.
  intros Hk. unfold internal_body_representation_of.
  destruct (mapping !! cls_id represents) as [pre|] eqn:Hrep; simpl; [assumption |].
  rewrite lookup_insert_ne; [assumption | congruence].
Qed.

(** After any run of registrations, a schema is mapped to what the
    mapping held for it at the start or, failing that, to the first class
    registered for it. *)
Lemma register_all_lookup (decls : list (PyClass * PyClass)) (mapping : gmap positive PyClass)
    (k : positive) :
  snd (register_all decls mapping) !! k
  = match mapping !! k with
    | Some c => Some c
    | None => first_registered k decls
    end.
Proof.
  revert mapping. induction decls as [|[represents cls] rest IH]; intros mapping; simpl.
  - by destruct (mapping !! k).
  - destruct (internal_body_representation_of represents cls mapping) as [r mapping'] eqn:Hstep.
    specialize (IH mapping').
    destruct (register_all rest mapping') as [rs mapping''] eqn:Hrest. simpl in *.
    rewrite IH. clear IH Hrest.
    unfold internal_body_representation_of in Hstep.
    destruct (mapping !! cls_id represents) as [pre|] eqn:Hrep.
    + injection Hstep as _ <-.
      destruct (mapping !! k) eqn:Hk; [reflexivity |].
      case_decide as Hid; [congruence | reflexivity].
    + injection Hstep as _ <-.
      case_decide as Hid.
      * subst k. by rewrite lookup_insert_eq, Hrep.
      * by rewrite lookup_insert_ne.
Qed.

(** C3.  Starting from the empty mapping and after any run of
    registrations, a public schema is mapped to the first internal
    representation registered for it, if there was one, and to nothing
    otherwise.  A further registration for a schema without a
    representation succeeds; one for a schema that has one raises a
    [TypeError] whose message names the schema and, by module and name,
    that first representation.  So no schema ever has a second one. *)
Theorem C3_one_internal_representation_per_schema
    (decls : list (PyClass * PyClass)) (represents cls : PyClass) :
  snd (register_all decls ∅) !! cls_id represents = first_registered (cls_id represents) decls
  /\ fst (internal_body_representation_of represents cls (snd (register_all decls ∅)))
     = match first_registered (cls_id represents) decls with
       | None => Ok cls
       | Some first =>
           Raise (TypeError (cls_name represents
                             +:+ " already has an internal request body representation: "
                             +:+ cls_module first +:+ "." +:+ cls_name first))
       end
  /\ snd (internal_body_representation_of represents cls (snd (register_all decls ∅)))
       !! cls_id represents
     = match first_registered (cls_id represents) decls with
       | None => Some cls
       | Some first => Some first
       end.
Proof.
  pose proof (register_all_lookup decls ∅ (cls_id represents)) as Hlook.
  rewrite lookup_empty in Hlook.
  split; [exact Hlook |].
  destruct (first_registered (cls_id represents) decls) as [first|].
  - rewrite (register_taken _ _ first) by exact Hlook. simpl. by split.
  - rewrite register_free by exact Hlook. simpl. split; [reflexivity |].
    apply lookup_insert_eq.
Qed.

(** C3 on two registrations for [UserCreateRequest]: the second one
    raises, and the message names the first. *)
Lemma C3_one_internal_representation_per_schema_witness :
  fst (internal_body_representation_of UserCreateRequest OtherInternalRequest
         (snd (register_all [(UserCreateRequest, InternalUserCreateRequest)] ∅)))
  = Raise (TypeError ("UserCreateRequest already has an internal request body representation: "
                      +:+ "schemas.internal.users.InternalUserCreateRequest"))
  /\ snd (internal_body_representation_of UserCreateRequest OtherInternalRequest
            (snd (register_all [(UserCreateRequest, InternalUserCreateRequest)] ∅)))
       !! cls_id UserCreateRequest
     = Some InternalUserCreateRequest.
Proof.
  exact (proj2 (C3_one_internal_representation_per_schema
                  [(UserCreateRequest, InternalUserCreateRequest)]
                  UserCreateRequest OtherInternalRequest)).
Defined.

(** C10.  A registration that raises leaves the mapping as it was, so
    the first registration stands; one that succeeds returns the
    decorated class itself and changes the mapping at the registered
    schema only, where it now holds that class. *)
Theorem C10_registration_atomic_and_identity
    (represents cls : PyClass) (mapping : gmap positive PyClass) :
  match mapping !! cls_id represents with
  | Some pre =>
      internal_body_representation_of represents cls mapping
      = (Raise (TypeError (already_has_message represents pre)), mapping)
  | None =>
      fst (internal_body_representation_of represents cls mapping) = Ok cls
      /\ snd (internal_body_representation_of represents cls mapping) !! cls_id represents
         = Some cls
      /\ (forall k : positive,
            k <> cls_id represents ->
            snd (internal_body_representation_of represents cls mapping) !! k = mapping !! k)
      /\ snd (internal_body_representation_of represents cls mapping)
         = <[cls_id represents := cls]> mapping
  end.
Proof.
  destruct (mapping !! cls_id represents) as [pre|] eqn:Hrep.
  - by apply register_taken.
  - rewrite register_free by assumption. simpl.
    split; [reflexivity |]. split; [apply lookup_insert_eq |].
    split; [| reflexivity].
    intros k Hk. by rewrite lookup_insert_ne.
Qed.

(** ** The store *)

Lemma alloc_fresh (o : PyObj) (h : Heap) : fst (alloc o h) ∉ dom h.
Proof. apply is_fresh. Qed.

Lemma alloc_lookup_new (o : PyObj) (h : Heap) : snd (alloc o h) !! fst (alloc o h) = Some o.
Proof. apply lookup_insert_eq. Qed.

Lemma alloc_lookup_old (o : PyObj) (h : Heap) (l : loc) :
  l ∈ dom h -> snd (alloc o h) !! l = h !! l.
Proof.
  intros Hl. apply lookup_insert_ne. intros <-. by apply (alloc_fresh o h).
Qed.

Lemma dict_setitem_Ok_inv (l : loc) (k v : string) (h h' : Heap) :
  dict_setitem l k v h = Ok h' ->
  exists d, h !! l = Some (ODict d) /\ h' = <[l := ODict (<[k := v]> d)]> h.
Proof.
  unfold dict_setitem. destruct (h !! l) as [[d| |]|]; try discriminate.
  intros [= <-]. eauto.
Qed.

Lemma headers_append_Ok_inv (l : loc) (k v : bytes) (h h' : Heap) :
  headers_append l k v h = Ok h' ->
  exists raw, h !! l = Some (OHeaders raw) /\ h' = <[l := OHeaders (raw ++ [(k, v)])]> h.
Proof.
  unfold headers_append. destruct (h !! l) as [[|raw|]|]; try discriminate.
  intros [= <-]. eauto.
Qed.

(** A write through a reference is read back through any other name of
    that reference. *)
Lemma dict_setitem_visible (l : loc) (k v : string) (h h' : Heap) :
  dict_setitem l k v h = Ok h' ->
  exists d, dict_items l h = Some d /\ dict_items l h' = Some (<[k := v]> d).
Proof.
  intros (d & Hd & ->)%dict_setitem_Ok_inv. exists d. unfold dict_items.
  by rewrite Hd, lookup_insert_eq.
Qed.

(** ** Payload views *)

(** The claim of C4 fails on the sample request: a cookie set through
    [RequestInfo.cookies], and a query parameter set through
    [RequestInfo.query_params], are read back from the request itself. *)
Lemma C4_mutation_reaches_request :
  exists (info : RequestInfo.t) (h1 h2 h3 : Heap),
    RequestInfo.__init__ sample_request (VRef 4) sample_heap = Ok (info, h1)
    /\ dict_items (Request.cookies sample_request) h1 = Some {["session" := "abc"]}
    /\ dict_setitem (RequestInfo.cookies info) "session" "forged" h1 = Ok h2
    /\ dict_items (Request.cookies sample_request) h2 = Some {["session" := "forged"]}
    /\ dict_items (Request.cookies sample_request) h2
       <> dict_items (Request.cookies sample_request) h1
    /\ dict_items (QueryParams._dict (Request.query_params sample_request)) h2
       = Some {["page" := "1"]}
    /\ dict_setitem (RequestInfo.query_params info) "page" "2" h2 = Ok h3
    /\ dict_items (QueryParams._dict (Request.query_params sample_request)) h3
       = Some {["page" := "2"]}.
Proof.
  eexists _, _, _, _.
  split; [vm_compute; reflexivity |].
  split; [vm_compute; reflexivity |].
  split; [vm_compute; reflexivity |].
  split; [vm_compute; reflexivity |].
  split; [vm_compute; discriminate |].
  split; [vm_compute; reflexivity |].
  split; vm_compute; reflexivity.
Qed.

(** C4, amended.  A [RequestInfo] built over a request whose headers
    are in the store holds the body it was given; for cookies and query
    parameters it holds the request's own two dictionaries, so an item
    set through either view is read back from the request; its headers
    are a new object, a copy of the request's raw list, and building it
    changes no object there was; an item appended to that copy leaves
    the request's headers as they were. *)
Theorem C4_request_info_aliases_cookies_copies_headers
    (request : Request.t) (body : PyValue) (h : Heap) (raw : list (bytes * bytes))
    (Hheaders : h !! Request.headers request = Some (OHeaders raw)) :
  exists (info : RequestInfo.t) (h' : Heap),
    RequestInfo.__init__ request body h = Ok (info, h')
    /\ RequestInfo.body info = body
    /\ RequestInfo.cookies info = Request.cookies request
    /\ RequestInfo.query_params info = QueryParams._dict (Request.query_params request)
    /\ (forall (k v : string) (h'' : Heap),
          dict_setitem (RequestInfo.cookies info) k v h' = Ok h'' ->
          exists d, dict_items (Request.cookies request) h' = Some d
                    /\ dict_items (Request.cookies request) h'' = Some (<[k := v]> d))
    /\ (forall (k v : string) (h'' : Heap),
          dict_setitem (RequestInfo.query_params info) k v h' = Ok h'' ->
          exists d, dict_items (QueryParams._dict (Request.query_params request)) h' = Some d
                    /\ dict_items (QueryParams._dict (Request.query_params request)) h''
                       = Some (<[k := v]> d))
    /\ (RequestInfo.headers info ∉ dom h)
    /\ headers_raw (RequestInfo.headers info) h' = Some raw
    /\ (forall l : loc, l ∈ dom h -> h' !! l = h !! l)
    /\ (forall (k v : bytes) (h'' : Heap),
          headers_append (RequestInfo.headers info) k v h' = Ok h'' ->
          headers_raw (RequestInfo.headers info) h'' = Some (raw ++ [(k, v)])%list
          /\ headers_raw (Request.headers request) h'' = Some raw).
Proof.
  unfold RequestInfo.__init__, mutablecopy. rewrite Hheaders. simpl bind.
  eexists _, _. split; [reflexivity |]. simpl.
  pose proof (alloc_fresh (OHeaders raw) h) as Hfresh. simpl in Hfresh.
  assert (fresh (dom h) <> Request.headers request) as Hne.
  { intros Heq. apply Hfresh. rewrite Heq. apply elem_of_dom. eauto. }
  split; [reflexivity |]. split; [reflexivity |]. split; [reflexivity |].
  split; [intros k v h''; apply dict_setitem_visible |].
  split; [intros k v h''; apply dict_setitem_visible |].
  split; [exact Hfresh |].
  split; [unfold headers_raw; by rewrite lookup_insert_eq |].
  split; [intros l Hl; apply (alloc_lookup_old (OHeaders raw) h l Hl) |].
  intros k v h'' (raw' & Hraw' & ->)%headers_append_Ok_inv.
  rewrite lookup_insert_eq in Hraw'. injection Hraw' as <-.
  unfold headers_raw. rewrite lookup_insert_eq.
  split; [reflexivity |].
  by rewrite !lookup_insert_ne, Hheaders.
Qed.

Lemma C4_request_info_aliases_cookies_copies_headers_witness :
  sample_heap !! Request.headers sample_request
    = Some (OHeaders [(String.list_byte_of_string "host", String.list_byte_of_string "example.org")])
  /\ exists (info : RequestInfo.t) (h' : Heap),
       RequestInfo.__init__ sample_request VNone sample_heap = Ok (info, h')
       /\ RequestInfo.cookies info = Request.cookies sample_request
       /\ (RequestInfo.headers info ∉ dom sample_heap).
Proof.
  split; [reflexivity |].
  destruct (C4_request_info_aliases_cookies_copies_headers
              sample_request VNone sample_heap
              [(String.list_byte_of_string "host", String.list_byte_of_string "example.org")]
              eq_refl)
    as (info & h' & Hinit & _ & Hcookies & _ & _ & _ & Hfresh & _).
  exists info, h'. exact (conj Hinit (conj Hcookies Hfresh)).
Defined.

Section ResponseInfoProperties.

Context `{transport : TransportResponse}.

(** C5.  Over a response in the store, reading [status_code] gives the
    response's status code; assigning it writes the response's status
    code and nothing else, and is what is read afterwards from the view
    and from the response alike; [headers] is the response's own headers
    object, so an item appended through it is in the response's
    headers; [set_cookie] and [delete_cookie] are the response's
    [set_cookie] and [delete_cookie], called on the response with the
    very arguments they were given. *)
Theorem C5_response_info_delegates_to_response
    (response : loc) (body : PyValue) (h : Heap) (code : Z) (hd : loc)
    (Hresponse : h !! response = Some (OResponse code hd)) :
  ResponseInfo.status_code (ResponseInfo.__init__ response body) h = Ok code
  /\ Response.status_code response h = Ok code
  /\ (forall value : Z,
        exists h' : Heap,
          ResponseInfo.set_status_code (ResponseInfo.__init__ response body) value h = Ok h'
          /\ h' = <[response := OResponse value hd]> h
          /\ Response.status_code response h' = Ok value
          /\ ResponseInfo.status_code (ResponseInfo.__init__ response body) h' = Ok value)
  /\ ResponseInfo.headers (ResponseInfo.__init__ response body) h = Ok hd
  /\ Response.headers response h = Ok hd
  /\ (forall (k v : bytes) (h' : Heap),
        headers_append hd k v h = Ok h' ->
        Response.headers response h' = Ok hd
        /\ exists raw, headers_raw hd h = Some raw
                       /\ headers_raw hd h' = Some (raw ++ [(k, v)])%list)
  /\ (forall a : CallArgs,
        ResponseInfo.set_cookie (ResponseInfo.__init__ response body) a h
        = Response_set_cookie response a h)
  /\ (forall a : CallArgs,
        ResponseInfo.delete_cookie (ResponseInfo.__init__ response body) a h
        = Response_delete_cookie response a h).
Proof.
  unfold ResponseInfo.status_code, ResponseInfo.set_status_code, ResponseInfo.headers,
    ResponseInfo.set_cookie, ResponseInfo.delete_cookie, same_definition_as_in,
    Response.status_code, Response.set_status_code, Response.headers.
  simpl. rewrite Hresponse.
  split; [reflexivity |]. split; [reflexivity |].
  split.
  { intros value. eexists. split; [reflexivity |]. split; [reflexivity |].
    by rewrite lookup_insert_eq. }
  split; [reflexivity |]. split; [reflexivity |].
  split; [| by split].
  intros k v h' (raw & Hraw & ->)%headers_append_Ok_inv.
  assert (hd <> response) as Hne by (intros ->; congruence).
  rewrite lookup_insert_ne, Hresponse by exact Hne.
  split; [reflexivity |].
  exists raw. unfold headers_raw. by rewrite Hraw, lookup_insert_eq.
Qed.

End ResponseInfoProperties.

(** C5 on the sample store, with a response whose [set_cookie] appends
    a header. *)
Lemma C5_response_info_delegates_to_response_witness :
  sample_heap !! 5%positive = Some (OResponse 200 6)
  /\ ResponseInfo.status_code (ResponseInfo.__init__ 5 VNone) sample_heap = Ok 200%Z
  /\ ResponseInfo.headers (ResponseInfo.__init__ 5 VNone) sample_heap = Ok 6%positive
  /\ @ResponseInfo.set_cookie sample_transport (ResponseInfo.__init__ 5 VNone)
       {| call_args := [VStr "token"]; call_kwargs := [] |} sample_heap
     = sample_set_cookie 5 {| call_args := [VStr "token"]; call_kwargs := [] |} sample_heap.
Proof.
  split; [reflexivity |].
  destruct (@C5_response_info_delegates_to_response sample_transport
              5%positive VNone sample_heap 200%Z 6%positive eq_refl)
    as (Hcode & _ & _ & Hheaders & _ & _ & Hset & _).
  exact (conj Hcode (conj Hheaders (Hset _))).
Defined.

(** ** Endpoint instructions *)

Import Endpoints.

Lemma is_Sentinel_spec (v : PyValue) : is_Sentinel v = true <-> v = Sentinel.
Proof. split; [by destruct v | by intros ->]. Qed.

Lemma had_attribute (self : EndpointInstructionFactory.t) (kwargs : AttrName -> option PyValue)
    (a : AttrName) :
  EndpointAttributesPayload.get a
    (EndpointHadInstruction.attributes (EndpointInstructionFactory.had self kwargs))
  = bound kwargs a.
Proof. by destruct a. Qed.

(** C6.  In the instruction [had] returns, each attribute given as a
    keyword argument holds the value given and every other attribute
    holds [Sentinel].  [Sentinel] is not [None]; and when no argument is
    [Sentinel] itself, an attribute of the payload is [Sentinel] exactly
    when it was not given, so an attribute left out is told apart from
    one set to [None]. *)
Theorem C6_had_payload_marks_unset_attributes
    (self : EndpointInstructionFactory.t) (kwargs : AttrName -> option PyValue)
    (Hlegit : forall (a : AttrName) (v : PyValue), kwargs a = Some v -> is_Sentinel v = false) :
  (forall a : AttrName,
     EndpointAttributesPayload.get a
       (EndpointHadInstruction.attributes (EndpointInstructionFactory.had self kwargs))
     = match kwargs a with
       | Some v => v
       | None => Sentinel
       end)
  /\ (forall a : AttrName,
       is_Sentinel
         (EndpointAttributesPayload.get a
            (EndpointHadInstruction.attributes (EndpointInstructionFactory.had self kwargs)))
       = true
       <-> kwargs a = None)
  /\ Sentinel <> VNone
  /\ is_Sentinel VNone = false
  /\ (forall v : PyValue, is_Sentinel v = false <-> v <> Sentinel).
Proof.
  split; [intros a; apply had_attribute |].
  split.
  { intros a. rewrite had_attribute. unfold bound.
    destruct (kwargs a) as [v|] eqn:Ha.
    - rewrite (Hlegit a v Ha). split; discriminate.
    - split; reflexivity. }
  split; [discriminate |]. split; [reflexivity |].
  intros v. rewrite <- is_Sentinel_spec. by destruct (is_Sentinel v).
Qed.

Lemma C6_had_payload_marks_unset_attributes_witness :
  (forall (a : AttrName) (v : PyValue), sample_kwargs a = Some v -> is_Sentinel v = false)
  /\ EndpointAttributesPayload.status_code
       (EndpointHadInstruction.attributes
          (EndpointInstructionFactory.had (endpoint "/users" ["GET"]) sample_kwargs))
     = VInt 201
  /\ EndpointAttributesPayload.description
       (EndpointHadInstruction.attributes
          (EndpointInstructionFactory.had (endpoint "/users" ["GET"]) sample_kwargs))
     = VNone
  /\ EndpointAttributesPayload.summary
       (EndpointHadInstruction.attributes
          (EndpointInstructionFactory.had (endpoint "/users" ["GET"]) sample_kwargs))
     = Sentinel.
Proof.
  assert (forall (a : AttrName) (v : PyValue),
            sample_kwargs a = Some v -> is_Sentinel v = false) as Hlegit.
  { intros a v. destruct a; simpl; intros [= <-]; reflexivity. }
  split; [exact Hlegit |].
  destruct (C6_had_payload_marks_unset_attributes (endpoint "/users" ["GET"]) sample_kwargs Hlegit)
    as (Hget & _).
  exact (conj (Hget a_status_code) (conj (Hget a_description) (Hget a_summary))).
Defined.

(** C7.  The three instructions made from [endpoint(endpoint_path,
    endpoint_methods)] carry that path and that list of methods as they
    were given, hence the same set of methods. *)
Theorem C7_endpoint_instructions_keep_key
    (endpoint_path : string) (endpoint_methods : list string)
    (kwargs : AttrName -> option PyValue) :
  key (DidntExist (EndpointInstructionFactory.didnt_exist (endpoint endpoint_path endpoint_methods)))
    = (endpoint_path, endpoint_methods)
  /\ key (Existed (EndpointInstructionFactory.existed (endpoint endpoint_path endpoint_methods)))
    = (endpoint_path, endpoint_methods)
  /\ key (Had (EndpointInstructionFactory.had (endpoint endpoint_path endpoint_methods) kwargs))
    = (endpoint_path, endpoint_methods)
  /\ (list_to_set
        (EndpointDidntExistInstruction.endpoint_methods
           (EndpointInstructionFactory.didnt_exist (endpoint endpoint_path endpoint_methods)))
      = (list_to_set endpoint_methods : gset string)
      /\ list_to_set
           (EndpointExistedInstruction.endpoint_methods
              (EndpointInstructionFactory.existed (endpoint endpoint_path endpoint_methods)))
         = (list_to_set endpoint_methods : gset string)
      /\ list_to_set
           (EndpointHadInstruction.endpoint_methods
              (EndpointInstructionFactory.had (endpoint endpoint_path endpoint_methods) kwargs))
         = (list_to_set endpoint_methods : gset string)).
Proof. repeat split. Qed.

(* ===================================================================== *)
(** * Further properties                                                  *)
(* ===================================================================== *)

(** ** The registry over time *)

Lemma register_step_subseteq (represents cls : PyClass) (mapping : gmap positive PyClass) :
  mapping ⊆ snd (internal_body_representation_of represents cls mapping).
Proof.
  unfold internal_body_representation_of.
  destruct (mapping !! cls_id represents) as [pre|] eqn:Hrep; simpl; [reflexivity |].
  by apply insert_subseteq.
Qed.

(** X1.  A registration only ever extends the mapping: whether it
    succeeds or raises, and over any run of registrations, every entry
    there was is still there with the same class. *)
Theorem registry_only_extended
    (represents cls : PyClass) (decls : list (PyClass * PyClass))
    (mapping : gmap positive PyClass) :
  mapping ⊆ snd (internal_body_representation_of represents cls mapping)
  /\ mapping ⊆ snd (register_all decls mapping).
Proof.
  split; [apply register_step_subseteq |].
  revert mapping. induction decls as [|[r c] rest IH]; intros mapping; simpl; [reflexivity |].
  pose proof (register_step_subseteq r c mapping) as Hstep.
  destruct (internal_body_representation_of r c mapping) as [o mapping'].
  specialize (IH mapping').
  destruct (register_all rest mapping') as [rs mapping'']. simpl in *.
  by transitivity mapping'.
Qed.

(** X2.  Over a run of registrations there is one outcome per
    declaration, and the mapping grows by exactly one entry per
    registration that succeeded: a registration that raised added
    nothing. *)
Theorem registry_size_counts_successes
    (decls : list (PyClass * PyClass)) (mapping : gmap positive PyClass) :
  length (fst (register_all decls mapping)) = length decls
  /\ size (snd (register_all decls mapping))
     = size mapping + length (List.filter is_ok (fst (register_all decls mapping))).
Proof.
  revert mapping. induction decls as [|[r c] rest IH]; intros mapping; simpl.
  - split; [reflexivity | lia].
  - unfold internal_body_representation_of.
    destruct (mapping !! cls_id r) as [pre|] eqn:Hrep.
    + specialize (IH mapping).
      destruct (register_all rest mapping) as [rs mapping'']. simpl in *.
      destruct IH as [-> ->]. split; reflexivity.
    + specialize (IH (<[cls_id r := c]> mapping)).
      destruct (register_all rest (<[cls_id r := c]> mapping)) as [rs mapping'']. simpl in *.
      destruct IH as [-> ->]. split; [reflexivity |].
      rewrite map_size_insert_None by assumption. lia.
Qed.

(** X3.  After a registration for a schema, whatever its outcome, any
    further registration for that schema raises and leaves the mapping
    alone, also when it names the very class registered before; the
    message names the class the schema had at first or, if it had none,
    the class just registered. *)
Theorem registration_never_succeeds_twice
    (represents cls cls' : PyClass) (mapping : gmap positive PyClass) :
  fst (internal_body_representation_of represents cls'
         (snd (internal_body_representation_of represents cls mapping)))
  = Raise (TypeError (already_has_message represents
                        (default cls (mapping !! cls_id represents))))
  /\ snd (internal_body_representation_of represents cls'
            (snd (internal_body_representation_of represents cls mapping)))
     = snd (internal_body_representation_of represents cls mapping).
Proof.
  unfold internal_body_representation_of at 2 4 5.
  destruct (mapping !! cls_id represents) as [pre|] eqn:Hrep; simpl.
  - by rewrite (register_taken _ _ pre).
  - rewrite (register_taken _ _ cls) by apply lookup_insert_eq. by split.
Qed.

(** X4.  Registrations for two different schemas do not interfere: each
    has the outcome it would have had alone, and the mapping they leave
    is the same in either order. *)
Theorem registrations_of_distinct_schemas_commute
    (r1 c1 r2 c2 : PyClass) (mapping : gmap positive PyClass)
    (Hdistinct : cls_id r1 <> cls_id r2) :
  fst (internal_body_representation_of r2 c2
         (snd (internal_body_representation_of r1 c1 mapping)))
  = fst (internal_body_representation_of r2 c2 mapping)
  /\ fst (internal_body_representation_of r1 c1
            (snd (internal_body_representation_of r2 c2 mapping)))
     = fst (internal_body_representation_of r1 c1 mapping)
  /\ snd (internal_body_representation_of r2 c2
            (snd (internal_body_representation_of r1 c1 mapping)))
     = snd (internal_body_representation_of r1 c1
              (snd (internal_body_representation_of r2 c2 mapping))).
Proof.
  unfold internal_body_representation_of.
  destruct (mapping !! cls_id r1) as [p1|] eqn:H1,
           (mapping !! cls_id r2) as [p2|] eqn:H2; simpl;
    rewrite ?lookup_insert_ne by congruence; rewrite ?H1, ?H2; simpl;
    repeat split.
  by apply insert_insert_ne.
Qed.

Lemma registrations_of_distinct_schemas_commute_witness :
  cls_id UserCreateRequest <> cls_id MyVersionChange
  /\ snd (internal_body_representation_of MyVersionChange OtherInternalRequest
            (snd (internal_body_representation_of UserCreateRequest InternalUserCreateRequest ∅)))
     = snd (internal_body_representation_of UserCreateRequest InternalUserCreateRequest
              (snd (internal_body_representation_of MyVersionChange OtherInternalRequest ∅))).
Proof.
  assert (cls_id UserCreateRequest <> cls_id MyVersionChange) as Hdistinct by discriminate.
  split; [exact Hdistinct |].
  exact (proj2 (proj2 (registrations_of_distinct_schemas_commute
                         UserCreateRequest InternalUserCreateRequest
                         MyVersionChange OtherInternalRequest ∅ Hdistinct))).
Defined.

(** ** Several views *)

Lemma init_Ok (request : Request.t) (body : PyValue) (h : Heap) (raw : list (bytes * bytes)) :
  h !! Request.headers request = Some (OHeaders raw) ->
  RequestInfo.__init__ request body h
  = Ok ({| RequestInfo.body := body;
           RequestInfo.headers := fresh (dom h);
           RequestInfo._cookies := Request.cookies request;
           RequestInfo._query_params := QueryParams._dict (Request.query_params request);
           RequestInfo._request := request |},
        <[fresh (dom h) := OHeaders raw]> h).
Proof. intros Hraw. unfold RequestInfo.__init__, mutablecopy. by rewrite Hraw. Qed.

(** X5.  Two [RequestInfo] built one after the other over the same
    request share the request's cookies and query parameters, but each
    has headers of its own: an item appended to the headers of one is
    not in the headers of the other, nor in the request's. *)
Theorem request_views_share_cookies_not_headers
    (request : Request.t) (body1 body2 : PyValue) (h : Heap) (raw : list (bytes * bytes))
    (Hheaders : h !! Request.headers request = Some (OHeaders raw)) :
  exists (info1 info2 : RequestInfo.t) (h1 h2 : Heap),
    RequestInfo.__init__ request body1 h = Ok (info1, h1)
    /\ RequestInfo.__init__ request body2 h1 = Ok (info2, h2)
    /\ RequestInfo.cookies info1 = RequestInfo.cookies info2
    /\ RequestInfo.query_params info1 = RequestInfo.query_params info2
    /\ RequestInfo.headers info1 <> RequestInfo.headers info2
    /\ headers_raw (RequestInfo.headers info1) h2 = Some raw
    /\ headers_raw (RequestInfo.headers info2) h2 = Some raw
    /\ (forall (k v : bytes) (h3 : Heap),
          headers_append (RequestInfo.headers info1) k v h2 = Ok h3 ->
          headers_raw (RequestInfo.headers info1) h3 = Some (raw ++ [(k, v)])%list
          /\ headers_raw (RequestInfo.headers info2) h3 = Some raw
          /\ headers_raw (Request.headers request) h3 = Some raw).
Proof.
  set (l1 := fresh (dom h)).
  set (h1 := <[l1 := OHeaders raw]> h).
  set (l2 := fresh (dom h1)).
  assert (l1 <> Request.headers request) as Hne1.
  { intros Heq. apply (is_fresh (dom h)). fold l1. rewrite Heq. apply elem_of_dom. eauto. }
  assert (h1 !! Request.headers request = Some (OHeaders raw)) as Hheaders1.
  { unfold h1. by rewrite lookup_insert_ne. }
  assert (l2 <> Request.headers request) as Hne2.
  { intros Heq. apply (is_fresh (dom h1)). fold l2. rewrite Heq. apply elem_of_dom. eauto. }
  assert (l2 <> l1) as Hne12.
  { intros Heq. apply (is_fresh (dom h1)). fold l2. rewrite Heq. apply elem_of_dom.
    unfold h1. rewrite lookup_insert_eq. eauto. }
  eexists _, _, _, _.
  split; [apply (init_Ok request body1 h raw Hheaders) |].
  split; [apply (init_Ok request body2 h1 raw Hheaders1) |].
  simpl. fold l1 h1 l2.
  split; [reflexivity |]. split; [reflexivity |].
  split; [congruence |].
  split; [unfold headers_raw, h1; by rewrite lookup_insert_ne, lookup_insert_eq |].
  split; [unfold headers_raw; by rewrite lookup_insert_eq |].
  intros k v h3 (raw' & Hraw' & ->)%headers_append_Ok_inv.
  rewrite lookup_insert_ne in Hraw' by congruence.
  unfold h1 in Hraw'. rewrite lookup_insert_eq in Hraw'. injection Hraw' as <-.
  unfold headers_raw.
  rewrite lookup_insert_eq.
  rewrite !(lookup_insert_ne _ l1) by congruence.
  rewrite lookup_insert_eq, lookup_insert_ne, Hheaders1 by congruence.
  by repeat split.
Qed.

Lemma request_views_share_cookies_not_headers_witness :
  sample_heap !! Request.headers sample_request
    = Some (OHeaders [(String.list_byte_of_string "host", String.list_byte_of_string "example.org")])
  /\ exists (info1 info2 : RequestInfo.t) (h1 h2 : Heap),
       RequestInfo.__init__ sample_request VNone sample_heap = Ok (info1, h1)
       /\ RequestInfo.__init__ sample_request (VInt 1) h1 = Ok (info2, h2)
       /\ RequestInfo.cookies info1 = RequestInfo.cookies info2
       /\ RequestInfo.headers info1 <> RequestInfo.headers info2.
Proof.
  split; [reflexivity |].
  destruct (request_views_share_cookies_not_headers
              sample_request VNone (VInt 1) sample_heap
              [(String.list_byte_of_string "host", String.list_byte_of_string "example.org")]
              eq_refl)
    as (info1 & info2 & h1 & h2 & Hinit1 & Hinit2 & Hcookies & _ & Hheaders & _).
  exists info1, info2, h1, h2.
  exact (conj Hinit1 (conj Hinit2 (conj Hcookies Hheaders))).
Defined.

(** X6.  [status_code] behaves as a field of the response, whichever
    view is used: the code written through one [ResponseInfo] is read
    through any other on the same response; writing back the code that
    is read changes nothing; of two writes the second stands; and a
    write keeps the response's headers object and every other object of
    the store. *)
Theorem status_code_is_a_field_of_the_response
    (response : loc) (body1 body2 : PyValue) (h : Heap) (code : Z) (hd : loc)
    (Hresponse : h !! response = Some (OResponse code hd)) :
  ResponseInfo.set_status_code (ResponseInfo.__init__ response body1) code h = Ok h
  /\ (forall v : Z,
        exists h1 : Heap,
          ResponseInfo.set_status_code (ResponseInfo.__init__ response body1) v h = Ok h1
          /\ ResponseInfo.status_code (ResponseInfo.__init__ response body2) h1 = Ok v
          /\ ResponseInfo.headers (ResponseInfo.__init__ response body2) h1 = Ok hd
          /\ dom h1 = dom h
          /\ (forall l : loc, l <> response -> h1 !! l = h !! l)
          /\ (forall w : Z,
                ResponseInfo.set_status_code (ResponseInfo.__init__ response body2) w h1
                = ResponseInfo.set_status_code (ResponseInfo.__init__ response body1) w h)).
Proof.
  unfold ResponseInfo.set_status_code, ResponseInfo.status_code, ResponseInfo.headers,
    Response.set_status_code, Response.status_code, Response.headers.
  simpl. rewrite Hresponse.
  split; [by rewrite insert_id |].
  intros v. eexists. split; [reflexivity |].
  rewrite lookup_insert_eq.
  split; [reflexivity |]. split; [reflexivity |].
  split.
  { apply set_eq. intros l. rewrite !elem_of_dom.
    destruct (decide (l = response)) as [->|Hl].
    - rewrite lookup_insert_eq, Hresponse. split; eauto.
    - by rewrite lookup_insert_ne. }
  split; [intros l Hl; by rewrite lookup_insert_ne |].
  intros w. by rewrite insert_insert_eq.
Qed.

Lemma status_code_is_a_field_of_the_response_witness :
  sample_heap !! 5%positive = Some (OResponse 200 6)
  /\ ResponseInfo.set_status_code (ResponseInfo.__init__ 5 VNone) 200 sample_heap = Ok sample_heap
  /\ exists h1 : Heap,
       ResponseInfo.set_status_code (ResponseInfo.__init__ 5 VNone) 404 sample_heap = Ok h1
       /\ ResponseInfo.status_code (ResponseInfo.__init__ 5 (VInt 7)) h1 = Ok 404%Z.
Proof.
  split; [reflexivity |].
  destruct (status_code_is_a_field_of_the_response
              5%positive VNone (VInt 7) sample_heap 200%Z 6%positive eq_refl)
    as (Hsame & Hwrite).
  split; [exact Hsame |].
  destruct (Hwrite 404%Z) as (h1 & Hset & Hget & _).
  exists h1. exact (conj Hset Hget).
Defined.

(** ** Attachment and comparison of instructions *)

(** X7.  [__set_name__] overwrites: an instruction bound in a second
    class is owned by that class, as if it had never been bound before,
    and the name it is bound to plays no part. *)
Theorem set_name_last_owner_wins
    (i : Instruction) (version1 version2 : PyClass) (name1 name2 : string) :
  __set_name__ (__set_name__ i version1 name1) version2 name2 = __set_name__ i version2 name2
  /\ __set_name__ i version1 name1 = __set_name__ i version1 name2
  /\ owner (instruction_base (__set_name__ (__set_name__ i version1 name1) version2 name2))
     = Some version2.
Proof. destruct i; repeat split. Qed.

Lemma function_eq_sym (f g : PyFunction) : function_eq f g = function_eq g f.
Proof. unfold function_eq. apply bool_decide_ext. split; congruence. Qed.

Lemma class_eq_sym (c d : PyClass) : class_eq c d = class_eq d c.
Proof. unfold class_eq. apply bool_decide_ext. split; congruence. Qed.

Lemma bool_decide_sym {A : Type} `{EqDecision A} (x y : A) :
  bool_decide (x = y) = bool_decide (y = x).
Proof. apply bool_decide_ext. split; congruence. Qed.

(** X8.  The generated [__eq__] gives the same outcome whichever
    instruction is on the left, value or exception; a request
    instruction and a response instruction, and a by-schema and a
    by-path instruction, are never equal, attached or not. *)
Theorem instruction_eq_symmetric_and_by_class (a b : Instruction) :
  __eq__ a b = __eq__ b a
  /\ (_payload_arg_name a <> _payload_arg_name b -> __eq__ a b = Ok false)
  /\ (is_Some (getattr_schema a) -> is_Some (getattr_path b) -> __eq__ a b = Ok false).
Proof.
  split; [| split].
  - destruct a as [b1 s1|b1 p1 m1|b1 s1|b1 p1 m1], b as [b2 s2|b2 p2 m2|b2 s2|b2 p2 m2];
      try reflexivity; simpl; unfold getattr_owner;
      destruct (owner b1) as [o1|], (owner b2) as [o2|]; try reflexivity; simpl;
      rewrite (function_eq_sym (transformer b1)), (class_eq_sym o1), ?(class_eq_sym s1),
        ?(bool_decide_sym p1), ?(bool_decide_sym m1); reflexivity.
  - destruct a, b; simpl; try reflexivity; intros Hne; by destruct Hne.
  - destruct a, b; simpl; try reflexivity; intros [? Ha] [? Hb]; discriminate.
Qed.

Lemma instruction_eq_symmetric_and_by_class_witness :
  _payload_arg_name
    (MkAlterRequestBySchemaInstruction (update_wrapper migrate_request) UserCreateRequest)
  <> _payload_arg_name
       (MkAlterResponseBySchemaInstruction (update_wrapper migrate_request) UserCreateRequest)
  /\ __eq__ (MkAlterRequestBySchemaInstruction (update_wrapper migrate_request) UserCreateRequest)
            (MkAlterResponseBySchemaInstruction (update_wrapper migrate_request) UserCreateRequest)
     = Ok false.
Proof.
  assert (_payload_arg_name
            (MkAlterRequestBySchemaInstruction (update_wrapper migrate_request) UserCreateRequest)
          <> _payload_arg_name
               (MkAlterResponseBySchemaInstruction (update_wrapper migrate_request)
                  UserCreateRequest)) as Hne by discriminate.
  split; [exact Hne |].
  exact (proj1 (proj2 (instruction_eq_symmetric_and_by_class _ _)) Hne).
Defined.

(** X9.  Two instructions compare equal exactly when both are attached,
    to the same class, and have the same class themselves, the same
    transformer object and the same matcher (the same schema, or the
    same path and the same set of methods).  The attributes copied from
    the transformer take no part in the comparison. *)
Theorem instruction_eq_true_iff (a b : Instruction) :
  __eq__ a b = Ok true
  <-> (exists o1 o2 : PyClass,
         owner (instruction_base a) = Some o1
         /\ owner (instruction_base b) = Some o2
         /\ cls_id o1 = cls_id o2)
      /\ fn_id (transformer (instruction_base a)) = fn_id (transformer (instruction_base b))
      /\ _payload_arg_name a = _payload_arg_name b
      /\ cls_id <$> getattr_schema a = cls_id <$> getattr_schema b
      /\ getattr_path a = getattr_path b
      /\ getattr_methods a = getattr_methods b.
Proof.
  split.
  - destruct a as [b1 s1|b1 p1 m1|b1 s1|b1 p1 m1], b as [b2 s2|b2 p2 m2|b2 s2|b2 p2 m2];
      simpl; try discriminate; unfold getattr_owner, function_eq, class_eq;
      destruct (owner b1) as [o1|], (owner b2) as [o2|]; simpl; try discriminate;
      intros [= Heq]; repeat (apply andb_prop in Heq as [Heq ?]);
      repeat match goal with H : bool_decide _ = true |- _ => apply bool_decide_eq_true in H end;
      subst; (split; [exists o1, o2; by repeat split |]); repeat split; congruence.
  - intros ((o1 & o2 & Ho1 & Ho2 & Ho) & Hf & Hname & Hschema & Hpath & Hmethods).
    destruct a as [b1 s1|b1 p1 m1|b1 s1|b1 p1 m1], b as [b2 s2|b2 p2 m2|b2 s2|b2 p2 m2];
      simpl in *; try discriminate; unfold getattr_owner, function_eq, class_eq;
      rewrite Ho1, Ho2; simpl; simplify_eq;
      rewrite !bool_decide_eq_true_2 by (reflexivity || assumption); reflexivity.
Qed.

(** ** Registration as a whole *)

(** X10.  The methods of a by-path registration count as a set: two
    lists with the same members, in whatever order and however often
    repeated, register the same instruction. *)
Theorem methods_order_and_repeats_ignored
    (path : string) (ms1 ms2 : list string) (f : PyFunction)
    (Hsame : forall m : string, m ∈ ms1 <-> m ∈ ms2) :
  register_request (a_str path) (Some ms1) f = register_request (a_str path) (Some ms2) f
  /\ register_response (a_str path) (Some ms1) f = register_response (a_str path) (Some ms2) f.
Proof.
  assert ((list_to_set ms1 : gset string) = list_to_set ms2) as Hset.
  { apply set_eq. intros m. rewrite !elem_of_list_to_set. apply Hsame. }
  unfold register_request, register_response. simpl. by rewrite Hset.
Qed.

Lemma methods_order_and_repeats_ignored_witness :
  (forall m : string, m ∈ ["GET"; "POST"] <-> m ∈ ["POST"; "GET"; "POST"])
  /\ register_request (a_str "/users") (Some ["GET"; "POST"]) migrate_request
     = register_request (a_str "/users") (Some ["POST"; "GET"; "POST"]) migrate_request.
Proof.
  assert (forall m : string, m ∈ ["GET"; "POST"] <-> m ∈ ["POST"; "GET"; "POST"]) as Hsame.
  { intros m. rewrite !elem_of_cons, !elem_of_nil. tauto. }
  split; [exact Hsame |].
  exact (proj1 (methods_order_and_repeats_ignored "/users" _ _ migrate_request Hsame)).
Defined.

Lemma post_init_is_ok (name : string) (f : PyFunction) :
  is_ok (__post_init__ name f) = bool_decide (signature_parameters f = [name]).
Proof.
  unfold __post_init__.
  destruct (decide (signature_parameters f = [name])) as [Hsig|Hsig].
  - by rewrite bool_decide_eq_false_2, bool_decide_eq_true_2 by (try intros Hne; auto).
  - by rewrite bool_decide_eq_true_2, bool_decide_eq_false_2.
Qed.

Lemma bind_is_ok {A B : Type} (r : result A) (g : A -> B) :
  is_ok (bind r (fun a => Ok (g a))) = is_ok r.
Proof. by destruct r. Qed.

Lemma register_request_is_ok (schema_or_path : SchemaOrPath) (methods : option (list string))
    (f : PyFunction) :
  is_ok (register_request schema_or_path methods f)
  = is_ok (_validate_decorator_args schema_or_path methods)
    && bool_decide (signature_parameters f = ["request"]).
Proof.
  unfold register_request.
  destruct schema_or_path as [path|schema], methods as [ms|]; try reflexivity; simpl;
    unfold AlterRequestByPathInstruction, AlterRequestBySchemaInstruction;
    by rewrite bind_is_ok, post_init_is_ok.
Qed.

Lemma register_response_is_ok (schema_or_path : SchemaOrPath) (methods : option (list string))
    (f : PyFunction) :
  is_ok (register_response schema_or_path methods f)
  = is_ok (_validate_decorator_args schema_or_path methods)
    && bool_decide (signature_parameters f = ["response"]).
Proof.
  unfold register_response.
  destruct schema_or_path as [path|schema], methods as [ms|]; try reflexivity; simpl;
    unfold AlterResponseByPathInstruction, AlterResponseBySchemaInstruction;
    by rewrite bind_is_ok, post_init_is_ok.
Qed.

(** X11.  A registration yields an instruction exactly when its
    arguments pass [_validate_decorator_args] and the names of the
    transformer's parameters are [["request"]], for a request
    registration, or [["response"]], for a response registration: there
    is no other way for it to raise. *)
Theorem registration_succeeds_iff
    (schema_or_path : SchemaOrPath) (methods : option (list string)) (f : PyFunction) :
  is_ok (register_request schema_or_path methods f)
  = is_ok (_validate_decorator_args schema_or_path methods)
    && bool_decide (signature_parameters f = ["request"])
  /\ is_ok (register_response schema_or_path methods f)
     = is_ok (_validate_decorator_args schema_or_path methods)
       && bool_decide (signature_parameters f = ["response"]).
Proof. split; [apply register_request_is_ok | apply register_response_is_ok]. Qed.

(** X12.  No function is accepted both as a request transformer and as
    a response transformer, whatever the arguments of the two
    registrations. *)
Theorem no_function_registers_in_both_directions
    (schema_or_path1 schema_or_path2 : SchemaOrPath) (methods1 methods2 : option (list string))
    (f : PyFunction) :
  is_ok (register_request schema_or_path1 methods1 f)
  && is_ok (register_response schema_or_path2 methods2 f) = false.
Proof.
  rewrite register_request_is_ok, register_response_is_ok.
  destruct (decide (signature_parameters f = ["request"])) as [Hsig|Hsig].
  - rewrite (bool_decide_eq_false_2 (signature_parameters f = ["response"]))
      by (rewrite Hsig; discriminate).
    by rewrite !andb_false_r.
  - rewrite (bool_decide_eq_false_2 (signature_parameters f = ["request"])) by assumption.
    by rewrite andb_false_r.
Qed.

Section CallingInstructions.

Context `{calls : PyCall}.

(** X13.  Calling a registered instruction is calling the function it
    was made from, on the same argument and store, and attaching the
    instruction to a class changes nothing to that. *)
Theorem calling_instruction_calls_transformer
    (schema_or_path : SchemaOrPath) (methods : option (list string)) (f : PyFunction)
    (i : Instruction) (version : PyClass) (name : string) (p : Payload) (h : Heap)
    (Hregistered : register_request schema_or_path methods f = Ok i
                   \/ register_response schema_or_path methods f = Ok i) :
  __call__ i p h = call_function f p h
  /\ __call__ (__set_name__ i version name) p h = call_function f p h.
Proof.
  assert (instruction_base i = update_wrapper f) as Hbase.
  { destruct Hregistered as [Hi | Hi];
      apply bind_Ok_inv in Hi as (d & Hd & Hi);
      apply (decorated_fresh d f i); eauto. }
  unfold __call__. rewrite Hbase. split; [reflexivity |].
  destruct i; simpl in *; by rewrite Hbase.
Qed.

End CallingInstructions.

Lemma calling_instruction_calls_transformer_witness :
  register_request (a_type UserCreateRequest) None migrate_request
    = Ok (MkAlterRequestBySchemaInstruction (update_wrapper migrate_request) UserCreateRequest)
  /\ @__call__ sample_calls
       (__set_name__
          (MkAlterRequestBySchemaInstruction (update_wrapper migrate_request) UserCreateRequest)
          MyVersionChange "migrate_request")
       (of_response (ResponseInfo.__init__ 5 VNone)) sample_heap
     = sample_call migrate_request (of_response (ResponseInfo.__init__ 5 VNone)) sample_heap.
Proof.
  split; [reflexivity |].
  exact (proj2 (@calling_instruction_calls_transformer sample_calls
                  (a_type UserCreateRequest) None migrate_request
                  (MkAlterRequestBySchemaInstruction (update_wrapper migrate_request)
                     UserCreateRequest)
                  MyVersionChange "migrate_request"
                  (of_response (ResponseInfo.__init__ 5 VNone)) sample_heap
                  (or_introl eq_refl))).
Defined.

(** ** Endpoint attributes *)

(** X14.  Two calls of [had] on a factory return the same instruction
    exactly when they bind every attribute to the same value, an
    attribute left out being bound to [Sentinel]: giving [Sentinel] for
    an attribute is the same as leaving the attribute out.  The payload
    does not depend on the factory. *)
Theorem had_equal_iff_same_bound_attributes
    (self other : EndpointInstructionFactory.t) (kwargs1 kwargs2 : AttrName -> option PyValue) :
  (EndpointInstructionFactory.had self kwargs1 = EndpointInstructionFactory.had self kwargs2
   <-> forall a : AttrName, bound kwargs1 a = bound kwargs2 a)
  /\ EndpointHadInstruction.attributes (EndpointInstructionFactory.had self kwargs1)
     = EndpointHadInstruction.attributes (EndpointInstructionFactory.had other kwargs1)
  /\ (forall a : AttrName,
        kwargs1 a = Some Sentinel -> kwargs2 a = None -> bound kwargs1 a = bound kwargs2 a).
Proof.
  split; [| split].
  - split.
    + intros Heq a. rewrite <- !(had_attribute self). by rewrite Heq.
    + intros Hbound. unfold EndpointInstructionFactory.had.
      by rewrite !Hbound.
  - reflexivity.
  - intros a H1 H2. unfold bound. by rewrite H1, H2.
Qed.

Lemma had_equal_iff_same_bound_attributes_witness :
  EndpointInstructionFactory.had (endpoint "/users" ["GET"]) sample_kwargs
  = EndpointInstructionFactory.had (endpoint "/users" ["GET"])
      (fun a => match a with
                | a_summary => Some Sentinel
                | _ => sample_kwargs a
                end).
Proof.
  apply (had_equal_iff_same_bound_attributes
           (endpoint "/users" ["GET"]) (endpoint "/users" ["GET"])).
  intros a. by destruct a.
Defined.
